(** * A shallow embedding of the portfolio ledger of [project.py]

    The development follows the source file section by section:
    the four tables created by [init_db], the [Portfolio] class with its
    connection, the two mutating methods [update_cash] and
    [record_transaction] and their private helpers.

    Conventions.
    - Python numbers handed to the methods ([int], [Decimal], [float]
      literals) are exact rationals [Q]; Python and SQL [NUMERIC]
      arithmetic on them is exact arithmetic of [Q].  In particular the
      quotient of two [NUMERIC] values, which the store computes to a finite
      number of digits, is taken exact, and so is the [float] product of
      line 299.
    - A [DECIMAL(15,2)] column holds an integer number of hundredths, a [Z];
      storing a value rounds it to two places (ties away from zero, as the
      store does) and fails when more than 15 digits are needed.
    - The connection carries the last committed ledger and the ledger seen by
      the open transaction; [rollback] returns to the former.  The two
      [SERIAL] counters belong to the connection and are not rolled back. *)

From Stdlib Require Import ZArith QArith Ascii Lia.
From stdpp Require Import base option gmap strings.

Local Open Scope Z_scope.

(** ** Numbers *)

Module Numeric.

(** Nearest integer, ties away from zero. *)
Definition round_half_away (x : Q) : Z :=
  let n := Qnum x in
  let d := Zpos (Qden x) in
  Z.sgn n * ((2 * Z.abs n + d) / (2 * d)).

(** The number of hundredths of [x] rounded to two places. *)
Definition to_cents (x : Q) : Z := round_half_away (x * 100)%Q.

(** The value of a stored two-place decimal. *)
Definition dec (c : Z) : Q := c # 100.

(** SQL [ROUND(x, 2)]. *)
Definition ROUND2 (x : Q) : Q := dec (to_cents x).

(** [DECIMAL(15,2)]: at most 13 digits before the point. *)
Definition fits_15_2 (c : Z) : bool := Z.abs c <? 10 ^ 15.

Definition Qlt_bool (x y : Q) : bool := negb (Qle_bool y x).

(** A value with at most two decimal places. *)
Definition two_places (x : Q) : Prop := exists c : Z, (x == dec c)%Q.

End Numeric.
Export Numeric.

(** ** Exceptions *)

(** Errors of the store that the statements of the source can meet. *)
Inductive DbError : Type :=
  | StringDataRightTruncation   (* value too long for VARCHAR(n) *)
  | NumericValueOutOfRange      (* DECIMAL(15,2) overflow *)
  | CheckViolation              (* a CHECK constraint *)
  | DivisionByZero.

(** One constructor per [raise ValueError] of the source. *)
Inductive ValueError : Type :=
  | AmountMustBePositive        (* update_cash: amount <= 0 *)
  | CashTypeMustBeDepOrWit      (* update_cash: trans_type not in (DEP, WIT) *)
  | InsufficientFundsToWithdraw (* update_cash: WIT over the balance *)
  | SharesMustBePositive        (* record_transaction: quantity <= 0 *)
  | PriceMustBePositive         (* record_transaction: manual_price <= 0 *)
  | DateMustBeYMD               (* record_transaction: strptime fails *)
  | InvalidTicker               (* get_stock_price *)
  | InsufficientFundsToBuy      (* record_transaction: value > balance *)
  | InsufficientSharesToSell.   (* _validate_sale *)

(** What can escape from inside a [try] block. *)
Inductive Exn : Type :=
  | PyValueError (e : ValueError)
  | PyTypeError                 (* subscript of None *)
  | PgError (e : DbError).

(** The error taxonomy, by raise site. *)
Inductive ErrorKind : Type :=
  | InvalidArgument | InsufficientFunds | InsufficientShares | UnknownTicker.

Definition error_kind (e : ValueError) : ErrorKind :=
  match e with
  | AmountMustBePositive | CashTypeMustBeDepOrWit
  | SharesMustBePositive | PriceMustBePositive | DateMustBeYMD => InvalidArgument
  | InsufficientFundsToWithdraw | InsufficientFundsToBuy => InsufficientFunds
  | InsufficientSharesToSell => InsufficientShares
  | InvalidTicker => UnknownTicker
  end.

(** What a public method does: return a boolean or raise to the caller. *)
Inductive Outcome : Type :=
  | Returned (b : bool)
  | Raised (e : ValueError).

(** ** The tables of [init_db] (lines 40-86) *)

Record CashRow : Type := mkCash {
  cash_id : Z;
  cash_amount : Z;            (* DECIMAL(15,2) *)
  cash_type : string;         (* VARCHAR(4), in DEP WIT BUY SELL *)
  cash_date : string          (* DEFAULT CURRENT_DATE *)
  }.

Record TransactionRow : Type := mkTransaction {
  tr_id : Z;
  tr_ticker : string;         (* VARCHAR(10) *)
  tr_price : Z;               (* DECIMAL(15,2), > 0 *)
  tr_quantity : Z;            (* DECIMAL(15,2), > 0 *)
  tr_type : string;           (* VARCHAR(4), in BUY SELL *)
  tr_cash_impact : Z;         (* DECIMAL(15,2) *)
  tr_date : string
  }.

(** A row of [holdings]; the key [ticker] is the key of the map. *)
Module holdings.

Record row : Type := mk {
    quantity : Z;               (* >= 0 *)
    average_purchase_price : Z; (* > 0 *)
    current_price : Z;          (* > 0 *)
    cost_basis : Z;             (* >= 0 *)
    current_value : Z           (* >= 0 *)
  }.

(** The generated column. *)
Definition unrealised_delta (h : row) : Z := current_value h - cost_basis h.

(** The CHECK constraints of the table. *)
Definition checks (h : row) : bool :=
  (0 <=? quantity h) && (0 <? average_purchase_price h)
  && (0 <? current_price h) && (0 <=? cost_basis h) && (0 <=? current_value h).

End holdings.

Record RealisedRow : Type := mkRealised {
  rd_transaction_id : Z;
  rd_ticker : string;
  rd_delta : Z;
  rd_date : string
  }.

Record Ledger : Type := mkLedger {
  tbl_cash_transactions : list CashRow;
  tbl_transactions : list TransactionRow;
  tbl_holdings : gmap string holdings.row;
  tbl_realised_delta : list RealisedRow
  }.

Definition empty_ledger : Ledger := mkLedger [] [] ∅ [].

(** ** The connection *)

Record Conn : Type := mkConn {
  committed : Ledger;          (* as of the last commit *)
  pending : Ledger;            (* as seen inside the open transaction *)
  cash_transactions_id_seq : Z;
  transactions_id_seq : Z
  }.

Definition rollback (c : Conn) : Conn :=
  mkConn (committed c) (committed c)
         (cash_transactions_id_seq c) (transactions_id_seq c).

Definition commit (c : Conn) : Conn :=
  mkConn (pending c) (pending c)
         (cash_transactions_id_seq c) (transactions_id_seq c).

Definition set_pending (l : Ledger) (c : Conn) : Conn :=
  mkConn (committed c) l (cash_transactions_id_seq c) (transactions_id_seq c).

(** ** Column coercion and CHECK constraints

    What the store does with a value assigned to a column of the tables. *)

Module Column.

(** The error monad of a single row computation. *)
Definition Row (A : Type) : Type := DbError + A.

Definition bind {A B : Type} (m : Row A) (k : A -> Row B) : Row B :=
  match m with
  | inl e => inl e
  | inr a => k a
  end.

Definition check (b : bool) : Row unit :=
  if b then inr tt else inl CheckViolation.

Definition decimal_15_2 (x : Q) : Row Z :=
  let c := to_cents x in
  if fits_15_2 c then inr c else inl NumericValueOutOfRange.

Fixpoint all_spaces (s : string) : bool :=
  match s with
  | EmptyString => true
  | String a s' => Ascii.eqb a " "%char && all_spaces s'
  end.

(** [VARCHAR(n)]: an over-long value is an error unless the excess is
    spaces, which are cut. *)
Definition varchar (n : nat) (s : string) : Row string :=
  if (String.length s <=? n)%nat then inr s
  else if all_spaces (String.substring n (String.length s - n) s)
       then inr (String.substring 0 n s)
       else inl StringDataRightTruncation.

(** SQL division. *)
Definition divide (x y : Q) : Row Q :=
  if Qeq_bool y 0 then inl DivisionByZero else inr (x / y)%Q.

End Column.

Notation "'col' x ':=' m 'in' k" := (Column.bind m (fun x => k))
  (at level 10, x name, m at level 100, k at level 200, only parsing).
Notation "'CHECK' b 'in' k" := (Column.bind (Column.check b) (fun _ => k))
  (at level 10, b at level 100, k at level 200, only parsing).

(** ** Statements on the connection *)

(** A statement runs on the connection and either yields a value or throws;
    the connection is threaded through in both cases, since the sequences
    keep what they handed out. *)
Definition M (A : Type) : Type := Conn -> (Exn + A) * Conn.

Definition ret {A : Type} (a : A) : M A := fun c => (inr a, c).

Definition throw {A : Type} (e : Exn) : M A := fun c => (inl e, c).

Definition bindM {A B : Type} (m : M A) (k : A -> M B) : M B :=
  fun c => match m c with
           | (inl e, c') => (inl e, c')
           | (inr a, c') => k a c'
           end.

Notation "'do' x ':=' m 'in' k" := (bindM m (fun x => k))
  (at level 10, x name, m at level 100, k at level 200, only parsing).
Notation "'exec' m 'in' k" := (bindM m (fun _ => k))
  (at level 10, m at level 100, k at level 200, only parsing).

(** The value of a row computation, or the store's error. *)
Definition execute {A : Type} (r : Column.Row A) : M A :=
  match r with
  | inl e => throw (PgError e)
  | inr a => ret a
  end.

Definition read_pending : M Ledger := fun c => (inr (pending c), c).

Definition write_pending (l : Ledger) : M unit := fun c => (inr tt, set_pending l c).

Definition nextval_cash_transactions : M Z :=
  fun c => (inr (cash_transactions_id_seq c + 1),
            mkConn (committed c) (pending c)
                   (cash_transactions_id_seq c + 1) (transactions_id_seq c)).

Definition nextval_transactions : M Z :=
  fun c => (inr (transactions_id_seq c + 1),
            mkConn (committed c) (pending c)
                   (cash_transactions_id_seq c) (transactions_id_seq c + 1)).

Definition type_in (ty : string) (allowed : list string) : bool :=
  existsb (String.eqb ty) allowed.

(** ** The [Portfolio] class *)

Module Portfolio.

Section Methods.

(** [get_stock_price(ticker, date)]: the price of the market-data service,
    [None] when it raises [ValueError("Invalid ticker ...")]. *)
Variable get_stock_price : string -> option string -> option Q.

(** Whether [datetime.strptime(date, "%Y-%m-%d")] accepts the string. *)
Variable strptime_ok : string -> bool.

(** [datetime.now().strftime("%Y-%m-%d")], also the store's CURRENT_DATE. *)
Variable today : string.

(** *** Properties *)

Definition sum_amounts (rows : list CashRow) : Z :=
  foldr (fun r acc => cash_amount r + acc) 0 rows.

(** Lines 181-189: [SELECT COALESCE(SUM(amount), 0) FROM cash_transactions] *)
Definition cash_balance (c : Conn) : Q :=
  dec (sum_amounts (tbl_cash_transactions (pending c))).

(** Lines 215-222: [SELECT SUM(delta) FROM realised_delta], 0.0 when there is
    none *)
Definition realised_delta (c : Conn) : Q :=
  dec (foldr (fun r acc => rd_delta r + acc) 0 (tbl_realised_delta (pending c))).

(** Lines 192-200: [SELECT SUM(current_value) FROM holdings], 0.0 when there is
    none *)
Definition total_value (c : Conn) : Q :=
  dec (map_fold (fun _ h acc => holdings.current_value h + acc) 0
         (tbl_holdings (pending c))).

(** Lines 203-211: [SELECT SUM(unrealised_delta) FROM holdings], 0.0 when there
    is none *)
Definition unrealised_delta (c : Conn) : Q :=
  dec (map_fold (fun _ h acc => holdings.unrealised_delta h + acc) 0
         (tbl_holdings (pending c))).

(** *** Inserts into [cash_transactions] *)

(** [INSERT INTO cash_transactions (amount, type) VALUES (%s, %s)] *)
Definition insert_into_cash_transactions (amount : Q) (type : string) : M unit :=
  do id := nextval_cash_transactions in
  do row := execute (col a := Column.decimal_15_2 amount in
                     col ty := Column.varchar 4 type in
                     CHECK (type_in ty ["DEP"; "WIT"; "BUY"; "SELL"]) in
                     inr (mkCash id a ty today)) in
  do l := read_pending in
  write_pending (mkLedger (tbl_cash_transactions l ++ [row]) (tbl_transactions l)
                          (tbl_holdings l) (tbl_realised_delta l)).

(** Lines 382-389. *)
Definition _update_cash_on_buy (value : Q) : M unit :=
  insert_into_cash_transactions (- value)%Q "BUY".

(** Lines 393-400. *)
Definition _update_cash_on_sell (value : Q) : M unit :=
  insert_into_cash_transactions value "SELL".

(** *** [update_cash] *)

(** Lines 226-249.  The three checks raise to the caller; the insert is the
    [try] block, whose [except] branch rolls back and returns False. *)
Definition update_cash (amount : Q) (trans_type : string) (c : Conn) : Outcome * Conn :=
  if Qle_bool amount 0 then (Raised AmountMustBePositive, c)
  else if negb (type_in trans_type ["DEP"; "WIT"]) then (Raised CashTypeMustBeDepOrWit, c)
  else
    let balance := cash_balance c in
    if String.eqb trans_type "WIT" && Qlt_bool balance amount
    then (Raised InsufficientFundsToWithdraw, c)
    else
      match insert_into_cash_transactions
              (if String.eqb trans_type "DEP" then amount else - amount)%Q trans_type c with
      | (inr _, c') => (Returned true, c')
      | (inl _, c') => (Returned false, rollback c')
      end.

(** *** Inserts into [transactions] and [realised_delta] *)

(** [INSERT INTO transactions (ticker, price, quantity, type, cash_impact, date)
     VALUES (...) RETURNING id] *)
Definition insert_into_transactions (ticker : string) (price quantity : Q)
    (type : string) (cash_impact : Q) (date : string) : M Z :=
  do id := nextval_transactions in
  do row := execute (col t := Column.varchar 10 ticker in
                     col p := Column.decimal_15_2 price in
                     col q := Column.decimal_15_2 quantity in
                     col ty := Column.varchar 4 type in
                     col ci := Column.decimal_15_2 cash_impact in
                     CHECK (0 <? p) in
                     CHECK (0 <? q) in
                     CHECK (type_in ty ["BUY"; "SELL"]) in
                     inr (mkTransaction id t p q ty ci date)) in
  do l := read_pending in
  exec write_pending (mkLedger (tbl_cash_transactions l) (tbl_transactions l ++ [row])
                               (tbl_holdings l) (tbl_realised_delta l)) in
  ret id.

(** [INSERT INTO realised_delta (transaction_id, ticker, delta, date) VALUES (...)] *)
Definition insert_into_realised_delta (transaction_id : Z) (ticker : string)
    (delta : Q) (date : string) : M unit :=
  do row := execute (col t := Column.varchar 10 ticker in
                     col d := Column.decimal_15_2 delta in
                     inr (mkRealised transaction_id t d date)) in
  do l := read_pending in
  write_pending (mkLedger (tbl_cash_transactions l) (tbl_transactions l)
                          (tbl_holdings l) (tbl_realised_delta l ++ [row])).

(** *** Holdings *)

(** The row proposed for insertion, EXCLUDED in the upsert: the values
    after coercion to the column types. *)
Definition excluded_row (quantity price current_price : Q) :
    Column.Row holdings.row :=
  col q := Column.decimal_15_2 quantity in
  col a := Column.decimal_15_2 price in
  col cp := Column.decimal_15_2 current_price in
  col cb := Column.decimal_15_2 (quantity * price)%Q in
  col cv := Column.decimal_15_2 (quantity * current_price)%Q in
  CHECK (holdings.checks (holdings.mk q a cp cb cv)) in
  inr (holdings.mk q a cp cb cv).

(** The SET list of ON CONFLICT (ticker) DO UPDATE. *)
Definition on_conflict_update (h e : holdings.row) : Column.Row holdings.row :=
  col q := Column.decimal_15_2
             (dec (holdings.quantity h) + dec (holdings.quantity e))%Q in
  col avg := Column.divide
               (dec (holdings.quantity h) * dec (holdings.average_purchase_price h)
                + dec (holdings.quantity e) * dec (holdings.average_purchase_price e))%Q
               (dec (holdings.quantity h) + dec (holdings.quantity e))%Q in
  col a := Column.decimal_15_2 (ROUND2 avg) in
  col cb := Column.decimal_15_2
              (ROUND2 (dec (holdings.cost_basis h)
                       + dec (holdings.quantity e)
                         * dec (holdings.average_purchase_price e)))%Q in
  col cv := Column.decimal_15_2
              (ROUND2 ((dec (holdings.quantity h) + dec (holdings.quantity e))
                       * dec (holdings.current_price e)))%Q in
  CHECK (holdings.checks (holdings.mk q a (holdings.current_price e) cb cv)) in
  inr (holdings.mk q a (holdings.current_price e) cb cv).

(** Lines 318-332: [INSERT INTO holdings ... ON CONFLICT (ticker) DO UPDATE]. *)
Definition _update_holdings_on_buy (ticker : string)
    (quantity price current_price : Q) : M unit :=
  do l := read_pending in
  do kv := execute (col t := Column.varchar 10 ticker in
                    col e := excluded_row quantity price current_price in
                    match tbl_holdings l !! t with
                    | None => inr (t, e)
                    | Some h => col h' := on_conflict_update h e in inr (t, h')
                    end) in
  write_pending (mkLedger (tbl_cash_transactions l) (tbl_transactions l)
                          (<[kv.1 := kv.2]> (tbl_holdings l)) (tbl_realised_delta l)).

(** Lines 336-345. *)
Definition _validate_sale (ticker : string) (quantity : Q) : M unit :=
  do l := read_pending in
  match tbl_holdings l !! ticker with
  | None => throw (PyValueError InsufficientSharesToSell)
  | Some holding =>
      if Qlt_bool (dec (holdings.quantity holding)) quantity
      then throw (PyValueError InsufficientSharesToSell)
      else ret tt
  end.

(** The SET list of the UPDATE of a sale. *)
Definition sell_update (h : holdings.row) (quantity current_price : Q) :
    Column.Row holdings.row :=
  col q := Column.decimal_15_2 (dec (holdings.quantity h) - quantity)%Q in
  col cp := Column.decimal_15_2 current_price in
  col per_share := Column.divide (dec (holdings.cost_basis h))
                                 (dec (holdings.quantity h)) in
  col cb := Column.decimal_15_2
              (ROUND2 (per_share * (dec (holdings.quantity h) - quantity)))%Q in
  col cv := Column.decimal_15_2
              (ROUND2 ((dec (holdings.quantity h) - quantity) * current_price))%Q in
  CHECK (holdings.checks (holdings.mk q (holdings.average_purchase_price h) cp cb cv)) in
  inr (holdings.mk q (holdings.average_purchase_price h) cp cb cv).

(** Lines 353-365: [UPDATE holdings SET ... WHERE ticker = %s]; [price] is not
    used. *)
Definition _update_holdings_on_sell (ticker : string)
    (quantity price current_price : Q) : M unit :=
  do l := read_pending in
  match tbl_holdings l !! ticker with
  | None => ret tt
  | Some h =>
      do h' := execute (sell_update h quantity current_price) in
      write_pending (mkLedger (tbl_cash_transactions l) (tbl_transactions l)
                              (<[ticker := h']> (tbl_holdings l)) (tbl_realised_delta l))
  end.

(** Lines 369-378. *)
Definition _get_average_purchase_price (ticker : string) : M Q :=
  do l := read_pending in
  match tbl_holdings l !! ticker with
  | None => throw PyTypeError
  | Some h => ret (dec (holdings.average_purchase_price h))
  end.

(** *** [record_transaction] *)

(** Python truth value of a string: the empty string is false. *)
Definition truthy (s : string) : bool := negb (String.eqb s EmptyString).

(** [date if date else datetime.now().strftime("%Y-%m-%d")] *)
Definition transaction_date (date : option string) : string :=
  match date with
  | Some d => if truthy d then d else today
  | None => today
  end.

(** [manual_price if manual_price else get_stock_price(ticker, transaction_date)] *)
Definition trade_price (ticker : string) (date : option string)
    (manual_price : option Q) : option Q :=
  match manual_price with
  | Some p => if negb (Qeq_bool p 0) then Some p
              else get_stock_price ticker (Some (transaction_date date))
  | None => get_stock_price ticker (Some (transaction_date date))
  end.

(** Lines 279-309: the body of the [try] block. *)
Definition record_transaction_try (ticker : string) (quantity : Q) (trans_type : string)
    (price current_price value : Q) (date : string) : M unit :=
  do transaction_id :=
     insert_into_transactions ticker price quantity trans_type
       (if String.eqb trans_type "SELL" then value else - value)%Q date in
  if String.eqb trans_type "BUY" then
    exec _update_holdings_on_buy ticker quantity price current_price in
    _update_cash_on_buy value
  else
    exec _validate_sale ticker quantity in
    do avg_price := _get_average_purchase_price ticker in
    exec _update_holdings_on_sell ticker quantity price current_price in
    exec _update_cash_on_sell value in
    let realised_delta := (quantity * (price - avg_price))%Q in
    insert_into_realised_delta transaction_id ticker realised_delta date.

(** Lines 253-314.  Everything before the [try] block raises to the caller;
    an exception inside it, of the store or of Python, ends in the [except]
    branch: rollback, return False. *)
Definition record_transaction (ticker : string) (quantity : Q) (trans_type : string)
    (date : option string) (manual_price : option Q) (c : Conn) : Outcome * Conn :=
  if Qle_bool quantity 0 then (Raised SharesMustBePositive, c)
  else if match manual_price with Some p => Qle_bool p 0 | None => false end
  then (Raised PriceMustBePositive, c)
  else if match date with Some d => truthy d && negb (strptime_ok d) | None => false end
  then (Raised DateMustBeYMD, c)
  else
    match get_stock_price ticker None with
    | None => (Raised InvalidTicker, c)
    | Some current_price =>
        match trade_price ticker date manual_price with
        | None => (Raised InvalidTicker, c)
        | Some price =>
            let balance := cash_balance c in
            let value := (price * quantity)%Q in
            if String.eqb trans_type "BUY" && Qlt_bool balance value
            then (Raised InsufficientFundsToBuy, c)
            else
              match record_transaction_try ticker quantity trans_type
                      price current_price value (transaction_date date) c with
              | (inr _, c') => (Returned true, c')
              | (inl _, c') => (Returned false, rollback c')
              end
        end
    end.

(** The three argument checks at the head of [record_transaction] pass. *)
Definition arguments_pass (quantity : Q) (date : option string)
    (manual_price : option Q) : Prop :=
  (0 < quantity)%Q
  /\ (forall p, manual_price = Some p -> (0 < p)%Q)
  /\ (forall d, date = Some d -> truthy d = true -> strptime_ok d = true).

(** Lines 162-168: [__exit__] without an exception in flight. *)
Definition __exit__ (c : Conn) : Conn := commit c.

End Methods.

End Portfolio.

(** ** Properties of statements and ledgers *)

(** A statement never touches what was committed. *)
Definition keeps_committed {A : Type} (m : M A) : Prop :=
  forall c r c', m c = (r, c') -> committed c' = committed c.



(** [SELL] followed by spaces only: what VARCHAR(4) cuts to SELL. *)
Definition padded_sell (s : string) : Prop :=
  exists pad, Column.all_spaces pad = true /\ s = ("SELL" +:+ pad)%string.

(** The cash entries of the ledger do not sum below zero. *)
Definition balance_nonneg (l : Ledger) : Prop :=
  0 <= Portfolio.sum_amounts (tbl_cash_transactions l).


(** The keys of the ledger, against the two sequences: ids were handed out by
    the sequences and are distinct (the primary keys of [cash_transactions],
    [transactions] and [realised_delta]), and every realised gain carries the id
    of a stored trade of type SELL, with its ticker and its date (the foreign
    key of [realised_delta]). *)
Definition keys_ok (cash_seq trans_seq : Z) (l : Ledger) : Prop :=
  NoDup (cash_id <$> tbl_cash_transactions l)
  /\ Forall (fun r => cash_id r <= cash_seq) (tbl_cash_transactions l)
  /\ NoDup (tr_id <$> tbl_transactions l)
  /\ Forall (fun r => tr_id r <= trans_seq) (tbl_transactions l)
  /\ NoDup (rd_transaction_id <$> tbl_realised_delta l)
  /\ Forall (fun rd => exists tr, tr ∈ tbl_transactions l
                                  /\ tr_id tr = rd_transaction_id rd
                                  /\ tr_type tr = "SELL"
                                  /\ tr_ticker tr = rd_ticker rd
                                  /\ tr_date tr = rd_date rd)
            (tbl_realised_delta l).

(** An invariant of ledgers, on the committed ledger and on the open
    transaction. *)
Definition on_both (P : Ledger -> Prop) (c : Conn) : Prop :=
  P (committed c) /\ P (pending c).

Definition conn_keys_ok (c : Conn) : Prop :=
  on_both (keys_ok (cash_transactions_id_seq c) (transactions_id_seq c)) c.

(** A statement never moves a sequence backwards. *)
Definition sequences_grow {A : Type} (m : M A) : Prop :=
  forall c r c', m c = (r, c') ->
    cash_transactions_id_seq c <= cash_transactions_id_seq c'
    /\ transactions_id_seq c <= transactions_id_seq c'.

(** ** The commands of the command line (lines 563-609) *)

Module Cli.


Section Commands.

Variable get_stock_price : string -> option string -> option Q.
Variable strptime_ok : string -> bool.
Variable today : string.


(** [__exit__], lines 162-168: rollback when an exception leaves the [with]
    block, commit otherwise. *)
Definition __exit__ (exc_type : option ValueError) (c : Conn) : Conn :=
  match exc_type with
  | Some _ => rollback c
  | None => Portfolio.__exit__ c
  end.






End Commands.

End Cli.

(** ** The fixtures of [test_project.py] *)

Module Fixtures.

Definition TEST_TICKER : string := "TEST".

(** [mock_stock_price]: 100.00 for TEST, 50.0 for any other ticker. *)
Definition mock_get_price (ticker : string) (date : option string) : option Q :=
  if String.eqb ticker TEST_TICKER then Some 100%Q else Some 50%Q.

Definition any_date (d : string) : bool := true.

Definition a_day : string := "2025-01-15".

Definition update_cash := Portfolio.update_cash a_day.

Definition record_transaction := Portfolio.record_transaction mock_get_price any_date a_day.

(** A connection on the cleaned database. *)
Definition clean : Conn := mkConn empty_ledger empty_ledger 0 0.

(** [funded_portfolio]: 10000 deposited, not yet committed. *)
Definition funded_portfolio : Conn := (update_cash 10000%Q "DEP" clean).2.

(** Run a call for its effect on the connection. *)
Definition after (call : Conn -> Outcome * Conn) (c : Conn) : Conn := (call c).2.

(** The funded portfolio after buying 10 TEST at 100. *)
Definition bought_ten : Conn :=
  after (record_transaction TEST_TICKER 10%Q "BUY" None (Some 100%Q)) funded_portfolio.


End Fixtures.

(** * Facts *)

(** ** Rounding to hundredths *)

Lemma div_between (a b q : Z) : 0 < b -> b * q <= a < b * (q + 1) -> a / b = q.
Proof.
  intros Hb [Hlo Hhi]. symmetry.
  apply (Z.div_unique_pos a b q (a - b * q)); lia.
Qed.

Lemma half_up_bounds (a d : Z) :
  0 < d -> 2 * d * ((2 * a + d) / (2 * d)) <= 2 * a + d < 2 * d * ((2 * a + d) / (2 * d) + 1).
Proof.
  intros Hd.
  pose proof (Z.div_mod (2 * a + d) (2 * d) ltac:(lia)) as E.
  pose proof (Z.mod_pos_bound (2 * a + d) (2 * d) ltac:(lia)) as B.
  lia.
Qed.

Lemma half_up_cross (a1 d1 a2 d2 : Z) :
  0 < d1 -> 0 < d2 -> a1 * d2 = a2 * d1 ->
  (2 * a1 + d1) / (2 * d1) = (2 * a2 + d2) / (2 * d2).
Proof.
  intros H1 H2 E. symmetry. apply div_between; [lia|].
  pose proof (half_up_bounds a1 d1 H1) as [Lo Hi].
  set (r := (2 * a1 + d1) / (2 * d1)) in *.
  split.
  - apply (Z.mul_le_mono_pos_l _ _ d1); [lia|]. nia.
  - apply (Z.mul_lt_mono_pos_l d1); [lia|]. nia.
Qed.

Lemma round_half_away_proper (x y : Q) :
  (x == y)%Q -> round_half_away x = round_half_away y.
Proof.
  unfold Qeq, round_half_away. destruct x as [n1 d1], y as [n2 d2]; simpl.
  intros E.
  assert (Z.sgn n1 = Z.sgn n2) as -> by nia.
  f_equal. apply half_up_cross; nia.
Qed.

Lemma to_cents_proper (x y : Q) : (x == y)%Q -> to_cents x = to_cents y.
Proof.
  intros E. unfold to_cents. apply round_half_away_proper. now rewrite E.
Qed.

Lemma to_cents_dec (c : Z) : to_cents (dec c) = c.
Proof.
  unfold to_cents, dec, round_half_away; simpl.
  change (Z.pos (100 * 1)) with 100.
  rewrite (div_between (2 * Z.abs (c * 100) + 100) (2 * 100) (Z.abs c)) by lia.
  lia.
Qed.

Lemma to_cents_ROUND2 (x : Q) : to_cents (ROUND2 x) = to_cents x.
Proof. apply to_cents_dec. Qed.

Lemma to_cents_nonneg (x : Q) : (0 <= x)%Q -> 0 <= to_cents x.
Proof.
  unfold Qle, to_cents, round_half_away. destruct x as [n d]; simpl. intros H.
  assert (0 <= n) by lia.
  apply Z.mul_nonneg_nonneg; [lia|]. apply Z.div_pos; lia.
Qed.

Lemma to_cents_opp (x : Q) : to_cents (- x) = - to_cents x.
Proof.
  unfold to_cents, round_half_away. destruct x as [n d]; simpl.
  replace (- n * 100) with (- (n * 100)) by lia.
  rewrite Z.sgn_opp, Z.abs_opp. lia.
Qed.

Lemma to_cents_two_places (x : Q) : two_places x -> (dec (to_cents x) == x)%Q.
Proof.
  intros [c E]. rewrite (to_cents_proper _ _ E), to_cents_dec. now symmetry.
Qed.

Lemma dec_plus (a b : Z) : (dec a + dec b == dec (a + b))%Q.
Proof. unfold dec, Qeq, Qplus; simpl. lia. Qed.


Lemma Qlt_bool_true (x y : Q) : Qlt_bool x y = true <-> (x < y)%Q.
Proof.
  unfold Qlt_bool. rewrite negb_true_iff. split.
  - intros H. apply Qnot_le_lt. intros L. apply Qle_bool_iff in L. congruence.
  - intros H. destruct (Qle_bool y x) eqn:E; [|reflexivity].
    apply Qle_bool_iff in E. exfalso. eapply Qlt_not_le; eauto.
Qed.

Lemma Qlt_bool_false (x y : Q) : Qlt_bool x y = false <-> (y <= x)%Q.
Proof.
  unfold Qlt_bool. rewrite negb_false_iff. apply Qle_bool_iff.
Qed.

(** ** Running statements *)

Section MonadFacts.

Context {A B : Type}.

Lemma bindM_inr (m : M A) (k : A -> M B) (c c' : Conn) (b : B) :
  bindM m k c = (inr b, c') ->
  exists a c1, m c = (inr a, c1) /\ k a c1 = (inr b, c').
Proof.
  unfold bindM. destruct (m c) as [[e|a] c1]; [discriminate|]. eauto.
Qed.

Lemma bindM_inl (m : M A) (k : A -> M B) (c c' : Conn) (e : Exn) :
  bindM m k c = (inl e, c') ->
  m c = (inl e, c') \/ exists a c1, m c = (inr a, c1) /\ k a c1 = (inl e, c').
Proof.
  unfold bindM. destruct (m c) as [[e0|a] c1]; [intros [= -> ->]; now left|]. eauto.
Qed.

Lemma execute_inr (r : Column.Row A) (c c' : Conn) (a : A) :
  execute r c = (inr a, c') -> r = inr a /\ c' = c.
Proof. destruct r; cbn; intros [= -> ->]; auto. Qed.

Lemma col_inr (m : Column.Row A) (k : A -> Column.Row B) (b : B) :
  Column.bind m k = inr b -> exists a, m = inr a /\ k a = inr b.
Proof. destruct m; cbn; [discriminate|eauto]. Qed.

End MonadFacts.

Lemma check_inr (b : bool) (u : unit) : Column.check b = inr u -> b = true.
Proof. destruct b; [auto|discriminate]. Qed.

Lemma decimal_inr (x : Q) (c : Z) :
  Column.decimal_15_2 x = inr c -> c = to_cents x /\ fits_15_2 (to_cents x) = true.
Proof.
  unfold Column.decimal_15_2. destruct (fits_15_2 (to_cents x)); [|discriminate].
  intros [= <-]; auto.
Qed.

Lemma divide_inr (x y q : Q) :
  Column.divide x y = inr q -> q = (x / y)%Q /\ ~ (y == 0)%Q.
Proof.
  unfold Column.divide. destruct (Qeq_bool y 0) eqn:E; [discriminate|].
  intros [= <-]. split; [reflexivity|]. intros H. apply Qeq_bool_iff in H. congruence.
Qed.

(** Takes a successful run apart, one statement at a time. *)
Ltac run_ok H :=
  repeat match type of H with
    | bindM _ _ _ = (inr _, _) =>
        let a := fresh "v" in let c1 := fresh "c" in let H1 := fresh "R" in
        apply bindM_inr in H as (a & c1 & H1 & H)
    end.

Ltac col_ok H :=
  repeat match type of H with
    | Column.bind (Column.check _) _ = inr _ =>
        let u := fresh "u" in let H1 := fresh "K" in
        apply col_inr in H as (u & H1 & H); apply check_inr in H1
    | Column.bind (Column.decimal_15_2 _) _ = inr _ =>
        let a := fresh "d" in let H1 := fresh "D" in
        apply col_inr in H as (a & H1 & H); apply decimal_inr in H1 as [-> H1]
    | Column.bind (Column.divide _ _) _ = inr _ =>
        let a := fresh "q" in let H1 := fresh "D" in
        apply col_inr in H as (a & H1 & H); apply divide_inr in H1 as [-> H1]
    | Column.bind _ _ = inr _ =>
        let a := fresh "s" in let H1 := fresh "V" in
        apply col_inr in H as (a & H1 & H)
    end.

Section StatementFacts.

Variable get_stock_price : string -> option string -> option Q.
Variable strptime_ok : string -> bool.
Variable today : string.

Lemma insert_into_cash_transactions_ok amount type c c' u :
  Portfolio.insert_into_cash_transactions today amount type c = (inr u, c') ->
  exists ty, Column.varchar 4 type = inr ty /\
    type_in ty ["DEP"; "WIT"; "BUY"; "SELL"] = true /\
    fits_15_2 (to_cents amount) = true /\
    c' = mkConn (committed c)
           (mkLedger (tbl_cash_transactions (pending c)
                      ++ [mkCash (cash_transactions_id_seq c + 1) (to_cents amount) ty today])
                     (tbl_transactions (pending c)) (tbl_holdings (pending c))
                     (tbl_realised_delta (pending c)))
           (cash_transactions_id_seq c + 1) (transactions_id_seq c).
Proof.
  unfold Portfolio.insert_into_cash_transactions. intros H. run_ok H.
  injection R as <- <-. apply execute_inr in R0 as [R0 ->]. col_ok R0.
  injection R0 as <-. injection R1 as <- <-. injection H as <-.
  exists s. auto.
Qed.

Lemma insert_into_transactions_ok ticker price quantity type cash_impact date c c' id :
  Portfolio.insert_into_transactions ticker price quantity type cash_impact date c
    = (inr id, c') ->
  exists t ty,
    Column.varchar 10 ticker = inr t /\ Column.varchar 4 type = inr ty /\
    type_in ty ["BUY"; "SELL"] = true /\
    0 < to_cents price /\ 0 < to_cents quantity /\
    id = transactions_id_seq c + 1 /\
    c' = mkConn (committed c)
           (mkLedger (tbl_cash_transactions (pending c))
                     (tbl_transactions (pending c)
                      ++ [mkTransaction id t (to_cents price) (to_cents quantity) ty
                            (to_cents cash_impact) date])
                     (tbl_holdings (pending c)) (tbl_realised_delta (pending c)))
           (cash_transactions_id_seq c) (transactions_id_seq c + 1).
Proof.
  unfold Portfolio.insert_into_transactions. intros H. run_ok H.
  injection R as <- <-. apply execute_inr in R0 as [R0 ->]. col_ok R0.
  injection R0 as <-. injection R1 as <- <-. injection R2 as <-. injection H as <- <-.
  exists s, s0. repeat split; auto; lia.
Qed.

Lemma insert_into_realised_delta_ok id ticker delta date c c' u :
  Portfolio.insert_into_realised_delta id ticker delta date c = (inr u, c') ->
  exists t, Column.varchar 10 ticker = inr t /\
    c' = set_pending
           (mkLedger (tbl_cash_transactions (pending c)) (tbl_transactions (pending c))
                     (tbl_holdings (pending c))
                     (tbl_realised_delta (pending c)
                      ++ [mkRealised id t (to_cents delta) date])) c.
Proof.
  unfold Portfolio.insert_into_realised_delta. intros H. run_ok H.
  apply execute_inr in R as [R ->]. col_ok R.
  injection R as <-. injection R0 as <- <-. injection H as <-.
  exists s. auto.
Qed.

Lemma excluded_row_ok quantity price current_price e :
  Portfolio.excluded_row quantity price current_price = inr e ->
  e = holdings.mk (to_cents quantity) (to_cents price) (to_cents current_price)
        (to_cents (quantity * price)) (to_cents (quantity * current_price))
  /\ holdings.checks e = true.
Proof.
  unfold Portfolio.excluded_row. intros H. col_ok H. injection H as <-. auto.
Qed.

Lemma on_conflict_update_ok h e h' :
  Portfolio.on_conflict_update h e = inr h' ->
  h' = holdings.mk
         (to_cents (dec (holdings.quantity h) + dec (holdings.quantity e)))
         (to_cents ((dec (holdings.quantity h) * dec (holdings.average_purchase_price h)
                     + dec (holdings.quantity e) * dec (holdings.average_purchase_price e))
                    / (dec (holdings.quantity h) + dec (holdings.quantity e))))
         (holdings.current_price e)
         (to_cents (dec (holdings.cost_basis h)
                    + dec (holdings.quantity e) * dec (holdings.average_purchase_price e)))
         (to_cents ((dec (holdings.quantity h) + dec (holdings.quantity e))
                    * dec (holdings.current_price e)))
  /\ holdings.checks h' = true.
Proof.
  unfold Portfolio.on_conflict_update. intros H. col_ok H. injection H as <-.
  rewrite !to_cents_ROUND2 in *. auto.
Qed.


Lemma _update_holdings_on_buy_ok ticker quantity price current_price c c' u :
  Portfolio._update_holdings_on_buy ticker quantity price current_price c = (inr u, c') ->
  exists t e h',
    Column.varchar 10 ticker = inr t /\
    Portfolio.excluded_row quantity price current_price = inr e /\
    match tbl_holdings (pending c) !! t with
    | None => h' = e
    | Some h => Portfolio.on_conflict_update h e = inr h'
    end /\
    c' = set_pending
           (mkLedger (tbl_cash_transactions (pending c)) (tbl_transactions (pending c))
                     (<[t := h']> (tbl_holdings (pending c)))
                     (tbl_realised_delta (pending c))) c.
Proof.
  unfold Portfolio._update_holdings_on_buy. intros H. run_ok H.
  injection R as <- <-. apply execute_inr in R0 as [R0 ->]. col_ok R0.
  injection H as <-. exists s, s0.
  destruct (tbl_holdings (pending c) !! s) as [h|] eqn:L.
  - col_ok R0. injection R0 as <-. exists s1. auto.
  - injection R0 as <-. exists s0. auto.
Qed.

Lemma _validate_sale_ok ticker quantity c c' u :
  Portfolio._validate_sale ticker quantity c = (inr u, c') ->
  c' = c /\ exists h, tbl_holdings (pending c) !! ticker = Some h
                      /\ (quantity <= dec (holdings.quantity h))%Q.
Proof.
  unfold Portfolio._validate_sale. intros H. run_ok H. injection R as <- <-.
  destruct (tbl_holdings (pending c) !! ticker) as [h|]; [|discriminate].
  destruct (Qlt_bool _ _) eqn:E; [discriminate|]. injection H as <-.
  apply Qlt_bool_false in E. eauto.
Qed.

Lemma _validate_sale_rejects ticker quantity c :
  match tbl_holdings (pending c) !! ticker with
  | None => True
  | Some h => (dec (holdings.quantity h) < quantity)%Q
  end ->
  Portfolio._validate_sale ticker quantity c = (inl (PyValueError InsufficientSharesToSell), c).
Proof.
  unfold Portfolio._validate_sale, bindM, read_pending.
  destruct (tbl_holdings (pending c) !! ticker) as [h|]; [|reflexivity].
  intros H. apply Qlt_bool_true in H. now rewrite H.
Qed.

Lemma _get_average_purchase_price_ok ticker c c' a :
  Portfolio._get_average_purchase_price ticker c = (inr a, c') ->
  c' = c /\ exists h, tbl_holdings (pending c) !! ticker = Some h
                      /\ a = dec (holdings.average_purchase_price h).
Proof.
  unfold Portfolio._get_average_purchase_price. intros H. run_ok H. injection R as <- <-.
  destruct (tbl_holdings (pending c) !! ticker) as [h|]; [|discriminate].
  injection H as <- <-. eauto.
Qed.

Lemma _update_holdings_on_sell_ok ticker quantity price current_price c c' u h :
  tbl_holdings (pending c) !! ticker = Some h ->
  Portfolio._update_holdings_on_sell ticker quantity price current_price c = (inr u, c') ->
  exists h', Portfolio.sell_update h quantity current_price = inr h' /\
    c' = set_pending
           (mkLedger (tbl_cash_transactions (pending c)) (tbl_transactions (pending c))
                     (<[ticker := h']> (tbl_holdings (pending c)))
                     (tbl_realised_delta (pending c))) c.
Proof.
  unfold Portfolio._update_holdings_on_sell. intros L H. run_ok H. injection R as <- <-.
  rewrite L in H. run_ok H. apply execute_inr in R as [R ->]. injection H as <-.
  eauto.
Qed.

End StatementFacts.

Section KeepsCommitted.

Context {A B : Type}.

Lemma kc_ret (a : A) : keeps_committed (ret a).
Proof. intros c r c' [= <- <-]. reflexivity. Qed.

Lemma kc_throw (e : Exn) : keeps_committed (@throw A e).
Proof. intros c r c' [= <- <-]. reflexivity. Qed.

Lemma kc_execute (r : Column.Row A) : keeps_committed (execute r).
Proof. destruct r; [apply kc_throw|apply kc_ret]. Qed.

Lemma kc_bind (m : M A) (k : A -> M B) :
  keeps_committed m -> (forall a, keeps_committed (k a)) -> keeps_committed (bindM m k).
Proof.
  intros Hm Hk c r c'. unfold bindM. destruct (m c) as [[e|a] c1] eqn:E.
  - intros [= <- <-]. eapply Hm; eauto.
  - intros H. apply Hk in H. apply Hm in E. congruence.
Qed.

End KeepsCommitted.

Lemma kc_read_pending : keeps_committed read_pending.
Proof. intros c r c' [= <- <-]. reflexivity. Qed.

Lemma kc_write_pending l : keeps_committed (write_pending l).
Proof. intros c r c' [= <- <-]. reflexivity. Qed.

Lemma kc_nextval_cash_transactions : keeps_committed nextval_cash_transactions.
Proof. intros c r c' [= <- <-]. reflexivity. Qed.

Lemma kc_nextval_transactions : keeps_committed nextval_transactions.
Proof. intros c r c' [= <- <-]. reflexivity. Qed.

Create HintDb kc.
#[local] Hint Resolve kc_ret kc_throw kc_execute kc_read_pending kc_write_pending
  kc_nextval_cash_transactions kc_nextval_transactions : kc.

Ltac kc :=
  repeat first
    [ apply kc_bind; [|intro]
    | solve [auto with kc]
    | match goal with
      | |- keeps_committed (match ?x with _ => _ end) => destruct x
      end ].

Section TryFacts.

Variable get_stock_price : string -> option string -> option Q.
Variable strptime_ok : string -> bool.
Variable today : string.

Lemma kc_insert_into_cash_transactions amount type :
  keeps_committed (Portfolio.insert_into_cash_transactions today amount type).
Proof. unfold Portfolio.insert_into_cash_transactions. kc. Qed.

Lemma kc_record_transaction_try ticker quantity trans_type price current_price value date :
  keeps_committed
    (Portfolio.record_transaction_try today ticker quantity trans_type
       price current_price value date).
Proof.
  unfold Portfolio.record_transaction_try, Portfolio.insert_into_transactions,
    Portfolio._update_holdings_on_buy, Portfolio._update_cash_on_buy,
    Portfolio._validate_sale, Portfolio._get_average_purchase_price,
    Portfolio._update_holdings_on_sell, Portfolio._update_cash_on_sell,
    Portfolio.insert_into_realised_delta, Portfolio.insert_into_cash_transactions.
  kc.
Qed.

(** What a successful purchase leaves behind. *)
Lemma buy_try_ok ticker quantity price current_price value date c c' u :
  Portfolio.record_transaction_try today ticker quantity "BUY"
    price current_price value date c = (inr u, c') ->
  exists t h',
    Column.varchar 10 ticker = inr t /\
    0 < to_cents quantity /\ 0 < to_cents price /\
    match tbl_holdings (pending c) !! t with
    | None => h' = holdings.mk (to_cents quantity) (to_cents price) (to_cents current_price)
                     (to_cents (quantity * price)) (to_cents (quantity * current_price))
    | Some h =>
        Portfolio.on_conflict_update h
          (holdings.mk (to_cents quantity) (to_cents price) (to_cents current_price)
             (to_cents (quantity * price)) (to_cents (quantity * current_price)))
        = inr h'
    end /\
    holdings.checks h' = true /\
    c' = mkConn (committed c)
           (mkLedger
              (tbl_cash_transactions (pending c)
               ++ [mkCash (cash_transactions_id_seq c + 1) (to_cents (- value)) "BUY" today])
              (tbl_transactions (pending c)
               ++ [mkTransaction (transactions_id_seq c + 1) t (to_cents price)
                     (to_cents quantity) "BUY" (to_cents (- value)) date])
              (<[t := h']> (tbl_holdings (pending c)))
              (tbl_realised_delta (pending c)))
           (cash_transactions_id_seq c + 1) (transactions_id_seq c + 1).
Proof.
  unfold Portfolio.record_transaction_try. intros H. run_ok H.
  change (String.eqb "BUY" "BUY") with true in H. cbv iota in H. run_ok H.
  apply insert_into_transactions_ok in R as (t & ty & Vt & Vty & _ & Hp & Hq & -> & ->).
  injection Vty as <-.
  apply _update_holdings_on_buy_ok in R0 as (t' & e & h' & Vt' & He & Hh & ->).
  rewrite Vt in Vt'. injection Vt' as <-.
  apply excluded_row_ok in He as [-> Hc].
  apply insert_into_cash_transactions_ok in H as (ty & Vty & _ & _ & ->).
  injection Vty as <-. cbn in *.
  exists t, h'. repeat split; auto.
  destruct (tbl_holdings (pending c) !! t) as [h|].
  - now apply on_conflict_update_ok in Hh.
  - now subst h'.
Qed.

(** What a successful sale leaves behind; the branch is taken by every
    type other than BUY. *)
Lemma sell_try_ok ticker quantity trans_type price current_price value date c c' u :
  String.eqb trans_type "BUY" = false ->
  Portfolio.record_transaction_try today ticker quantity trans_type
    price current_price value date c = (inr u, c') ->
  exists t ty h h',
    Column.varchar 10 ticker = inr t /\
    Column.varchar 4 trans_type = inr ty /\ type_in ty ["BUY"; "SELL"] = true /\
    0 < to_cents quantity /\ 0 < to_cents price /\
    tbl_holdings (pending c) !! ticker = Some h /\
    (quantity <= dec (holdings.quantity h))%Q /\
    Portfolio.sell_update h quantity current_price = inr h' /\
    c' = mkConn (committed c)
           (mkLedger
              (tbl_cash_transactions (pending c)
               ++ [mkCash (cash_transactions_id_seq c + 1) (to_cents value) "SELL" today])
              (tbl_transactions (pending c)
               ++ [mkTransaction (transactions_id_seq c + 1) t (to_cents price)
                     (to_cents quantity) ty
                     (to_cents (if String.eqb trans_type "SELL" then value else - value))
                     date])
              (<[ticker := h']> (tbl_holdings (pending c)))
              (tbl_realised_delta (pending c)
               ++ [mkRealised (transactions_id_seq c + 1) t
                     (to_cents (quantity * (price - dec (holdings.average_purchase_price h))))
                     date]))
           (cash_transactions_id_seq c + 1) (transactions_id_seq c + 1).
Proof.
  unfold Portfolio.record_transaction_try. intros NB H. run_ok H.
  rewrite NB in H. run_ok H.
  apply insert_into_transactions_ok in R as (t & ty & Vt & Vty & Hty & Hp & Hq & -> & ->).
  apply _validate_sale_ok in R0 as [-> (h & L & Hle)].
  apply _get_average_purchase_price_ok in R1 as [-> (h0 & L0 & ->)].
  cbn in L, L0. rewrite L in L0. injection L0 as <-.
  eapply _update_holdings_on_sell_ok in R2 as (h' & Hs & ->); [|exact L].
  apply insert_into_cash_transactions_ok in R3 as (ty' & Vty' & _ & _ & ->).
  injection Vty' as <-.
  apply insert_into_realised_delta_ok in H as (t' & Vt' & ->).
  rewrite Vt in Vt'. injection Vt' as <-. cbn in *.
  exists t, ty, h, h'. repeat split; auto.
Qed.

End TryFacts.

(** ** The two mutating methods *)

Lemma type_in_dep_wit kind :
  type_in kind ["DEP"; "WIT"] = true -> kind = "DEP" \/ kind = "WIT".
Proof.
  unfold type_in; cbn. rewrite !orb_true_iff, !String.eqb_eq. intuition discriminate.
Qed.

Section MethodFacts.

Variable get_stock_price : string -> option string -> option Q.
Variable strptime_ok : string -> bool.
Variable today : string.

Lemma update_cash_raised amount kind c e c' :
  Portfolio.update_cash today amount kind c = (Raised e, c') -> c' = c.
Proof.
  unfold Portfolio.update_cash.
  repeat match goal with
         | |- context [if ?b then _ else _] => destruct b
         end; try (intros [= _ <-]; reflexivity).
  all: destruct (Portfolio.insert_into_cash_transactions _ _ _ _) as [[?|?] ?]; discriminate.
Qed.

(** When the checks pass, [update_cash] is its [try] block. *)
Lemma update_cash_run amount kind c :
  (0 < amount)%Q ->
  kind = "DEP" \/ kind = "WIT" /\ (amount <= Portfolio.cash_balance c)%Q ->
  Portfolio.update_cash today amount kind c =
  match Portfolio.insert_into_cash_transactions today
          (if String.eqb kind "DEP" then amount else - amount)%Q kind c with
  | (inr _, c') => (Returned true, c')
  | (inl _, c') => (Returned false, rollback c')
  end.
Proof.
  intros Hpos Hk. unfold Portfolio.update_cash.
  destruct (Qle_bool amount 0) eqn:E.
  { apply Qle_bool_iff in E. destruct (Qlt_not_le _ _ Hpos E). }
  destruct Hk as [-> | [-> Hle]]; cbn.
  - reflexivity.
  - apply Qlt_bool_false in Hle. now rewrite Hle.
Qed.

Lemma update_cash_returned amount kind c b c' :
  Portfolio.update_cash today amount kind c = (Returned b, c') ->
  (0 < amount)%Q
  /\ (kind = "DEP" \/ kind = "WIT" /\ (amount <= Portfolio.cash_balance c)%Q).
Proof.
  unfold Portfolio.update_cash.
  destruct (Qle_bool amount 0) eqn:E; [discriminate|].
  destruct (type_in kind ["DEP"; "WIT"]) eqn:T; [|discriminate]. cbn [negb].
  intros H. split.
  { apply Qnot_le_lt. intros L. apply Qle_bool_iff in L. congruence. }
  apply type_in_dep_wit in T as [-> | ->]; [now left|right]. split; [reflexivity|].
  cbn in H. destruct (Qlt_bool _ _) eqn:L; [discriminate|]. now apply Qlt_bool_false.
Qed.


Lemma update_cash_true amount kind c c' :
  Portfolio.update_cash today amount kind c = (Returned true, c') ->
  Portfolio.insert_into_cash_transactions today
    (if String.eqb kind "DEP" then amount else - amount)%Q kind c = (inr tt, c').
Proof.
  intros H. pose proof (update_cash_returned _ _ _ _ _ H) as [Hpos Hk].
  rewrite (update_cash_run _ _ _ Hpos Hk) in H.
  destruct (Portfolio.insert_into_cash_transactions _ _ _ _) as [[e|u] c1] eqn:E;
    [discriminate|destruct u].
  now injection H as <-.
Qed.

Lemma trade_price_manual ticker date p :
  (0 < p)%Q -> Portfolio.trade_price get_stock_price today ticker date (Some p) = Some p.
Proof.
  intros Hp. unfold Portfolio.trade_price.
  destruct (Qeq_bool p 0) eqn:E; [|reflexivity].
  apply Qeq_bool_iff in E. rewrite E in Hp. now apply Qlt_irrefl in Hp.
Qed.

(** When the arguments pass and the prices resolve, [record_transaction] is
    the funds check followed by its [try] block. *)
Lemma record_transaction_run ticker quantity kind date manual_price c current price :
  Portfolio.arguments_pass strptime_ok quantity date manual_price ->
  get_stock_price ticker None = Some current ->
  Portfolio.trade_price get_stock_price today ticker date manual_price = Some price ->
  Portfolio.record_transaction get_stock_price strptime_ok today
    ticker quantity kind date manual_price c =
  if String.eqb kind "BUY" && Qlt_bool (Portfolio.cash_balance c) (price * quantity)
  then (Raised InsufficientFundsToBuy, c)
  else match Portfolio.record_transaction_try today ticker quantity kind price current
               (price * quantity) (Portfolio.transaction_date today date) c with
       | (inr _, c') => (Returned true, c')
       | (inl _, c') => (Returned false, rollback c')
       end.
Proof.
  intros (Hq & Hp & Hd) Hc Ht. unfold Portfolio.record_transaction.
  destruct (Qle_bool quantity 0) eqn:E.
  { apply Qle_bool_iff in E. destruct (Qlt_not_le _ _ Hq E). }
  assert (match manual_price with Some p => Qle_bool p 0 | None => false end = false) as ->.
  { destruct manual_price as [p|]; [|reflexivity].
    destruct (Qle_bool p 0) eqn:Ep; [|reflexivity].
    apply Qle_bool_iff in Ep. exfalso. eapply Qlt_not_le; [apply (Hp p)|]; eauto. }
  assert (match date with
          | Some d => Portfolio.truthy d && negb (strptime_ok d)
          | None => false
          end = false) as ->.
  { destruct date as [d|]; [|reflexivity].
    destruct (Portfolio.truthy d) eqn:Et; [|reflexivity].
    now rewrite (Hd d eq_refl Et). }
  now rewrite Hc, Ht.
Qed.

(** A call that did not raise went through the argument checks. *)
Lemma record_transaction_returned ticker quantity kind date manual_price c b c' :
  Portfolio.record_transaction get_stock_price strptime_ok today
    ticker quantity kind date manual_price c = (Returned b, c') ->
  exists current price,
    Portfolio.arguments_pass strptime_ok quantity date manual_price
    /\ get_stock_price ticker None = Some current
    /\ Portfolio.trade_price get_stock_price today ticker date manual_price = Some price.
Proof.
  unfold Portfolio.record_transaction.
  destruct (Qle_bool quantity 0) eqn:E; [discriminate|].
  destruct (match manual_price with Some p => Qle_bool p 0 | None => false end) eqn:Ep;
    [discriminate|].
  destruct (match date with
            | Some d => Portfolio.truthy d && negb (strptime_ok d)
            | None => false
            end) eqn:Ed; [discriminate|].
  destruct (get_stock_price ticker None) as [current|]; [|discriminate].
  destruct (Portfolio.trade_price _ _ _ _ _) as [price|]; [|discriminate].
  intros _. exists current, price. repeat split; auto.
  - apply Qnot_le_lt. intros L. apply Qle_bool_iff in L. congruence.
  - intros p ->. apply Qnot_le_lt. intros L. apply Qle_bool_iff in L. congruence.
  - intros d -> Ht. rewrite Ht in Ed. cbn in Ed. now apply negb_false_iff in Ed.
Qed.

Lemma record_transaction_raised ticker quantity kind date manual_price c e c' :
  Portfolio.record_transaction get_stock_price strptime_ok today
    ticker quantity kind date manual_price c = (Raised e, c') -> c' = c.
Proof.
  unfold Portfolio.record_transaction.
  repeat match goal with
         | |- context [if ?b then _ else _] => destruct b
         | |- context [match get_stock_price ?t ?d with _ => _ end] =>
             destruct (get_stock_price t d)
         | |- context [match Portfolio.trade_price ?a ?b ?c ?d ?e with _ => _ end] =>
             destruct (Portfolio.trade_price a b c d e)
         end; try (intros [= _ <-]; reflexivity).
  all: destruct (Portfolio.record_transaction_try _ _ _ _ _ _ _ _ _) as [[?|?] ?];
    discriminate.
Qed.


Lemma record_transaction_true ticker quantity kind date manual_price c c' :
  Portfolio.record_transaction get_stock_price strptime_ok today
    ticker quantity kind date manual_price c = (Returned true, c') ->
  exists current price,
    get_stock_price ticker None = Some current
    /\ Portfolio.trade_price get_stock_price today ticker date manual_price = Some price
    /\ Portfolio.record_transaction_try today ticker quantity kind price current
         (price * quantity) (Portfolio.transaction_date today date) c = (inr tt, c').
Proof.
  intros H. pose proof (record_transaction_returned _ _ _ _ _ _ _ _ H)
    as (current & price & Ha & Hc & Ht).
  rewrite (record_transaction_run _ _ _ _ _ _ _ _ Ha Hc Ht) in H.
  destruct (_ && _); [discriminate|].
  destruct (Portfolio.record_transaction_try _ _ _ _ _ _ _ _ _) as [[e|u] c1] eqn:E;
    [discriminate|destruct u].
  injection H as <-. eauto.
Qed.

End MethodFacts.

(** * The claims *)

(** ** Purchases over the balance *)



(** ** Sales *)






(** ** Purchases *)




(** A quantity with three decimal places does not come back: buying 0.126 TEST
    stores 0.13 in the trade and in the new holding. *)
Lemma C9_counterexample :
  let r := Fixtures.record_transaction "TEST" (126 # 1000) "BUY" None None
             Fixtures.funded_portfolio in
  r.1 = Returned true
  /\ holdings.quantity <$> tbl_holdings (pending r.2) !! "TEST" = Some 13
  /\ tr_quantity <$> last (tbl_transactions (pending r.2)) = Some 13
  /\ ~ (dec 13 == 126 # 1000)%Q.
Proof.
  cbv zeta. split; [vm_compute; reflexivity|].
  split; [vm_compute; reflexivity|].
  split; [vm_compute; reflexivity|].
  intros H. vm_compute in H. discriminate H.
Qed.

(** C9 as amended: a successful BUY stores the given quantity rounded to two
    decimal places, in the new trade and in the holding (added to the quantity
    already held, if any).  A fractional quantity with at most two decimal
    places, such as 0.5, therefore round-trips exactly. *)
Theorem C9_buy_quantity_round_trip
    (get_stock_price : string -> option string -> option Q)
    (strptime_ok : string -> bool) (today : string)
    (ticker : string) (quantity : Q) (date : option string) (manual_price : option Q)
    (c c' : Conn) (t : string) :
  Portfolio.record_transaction get_stock_price strptime_ok today
    ticker quantity "BUY" date manual_price c = (Returned true, c') ->
  Column.varchar 10 ticker = inr t ->
  exists tr h',
    tbl_transactions (pending c') = tbl_transactions (pending c) ++ [tr]
    /\ tbl_holdings (pending c') !! t = Some h'
    /\ tr_quantity tr = to_cents quantity
    /\ holdings.quantity h'
       = match tbl_holdings (pending c) !! t with
         | Some h0 => holdings.quantity h0 + to_cents quantity
         | None => to_cents quantity
         end
    /\ (two_places quantity ->
        (dec (tr_quantity tr) == quantity)%Q
        /\ (dec (holdings.quantity h')
            == match tbl_holdings (pending c) !! t with
               | Some h0 => dec (holdings.quantity h0) + quantity
               | None => quantity
               end)%Q).
Proof.
  intros H Vt.
  apply record_transaction_true in H as (current & price & _ & _ & H).
  apply buy_try_ok in H as (t' & h' & Vt' & _ & _ & Hh & _ & ->).
  rewrite Vt in Vt'. injection Vt' as <-.
  eexists _, h'. cbn. rewrite lookup_insert_eq.
  assert (holdings.quantity h'
          = match tbl_holdings (pending c) !! t with
            | Some h0 => holdings.quantity h0 + to_cents quantity
            | None => to_cents quantity
            end) as Eq.
  { destruct (tbl_holdings (pending c) !! t) as [h0|].
    - apply on_conflict_update_ok in Hh as [-> _]. cbn.
      rewrite (to_cents_proper _ _ (dec_plus _ _)). apply to_cents_dec.
    - now subst h'. }
  repeat split; auto.
  - now apply to_cents_two_places.
  - rewrite Eq. destruct (tbl_holdings (pending c) !! t) as [h0|].
    + rewrite <- dec_plus. now rewrite (to_cents_two_places _ H).
    + now apply to_cents_two_places.
Qed.

(** Buying 0.5 TEST on the funded portfolio: the trade and the holding hold 0.50. *)
Lemma C9_witness :
  let c' := Fixtures.after (Fixtures.record_transaction "TEST" (1 # 2) "BUY" None None)
              Fixtures.funded_portfolio in
  Fixtures.record_transaction "TEST" (1 # 2) "BUY" None None Fixtures.funded_portfolio
  = (Returned true, c')
  /\ Column.varchar 10 "TEST" = inr "TEST"
  /\ two_places (1 # 2)
  /\ holdings.quantity <$> tbl_holdings (pending c') !! "TEST" = Some 50
  /\ tr_quantity <$> last (tbl_transactions (pending c')) = Some 50
  /\ (dec 50 == 1 # 2)%Q.
Proof.
  cbv zeta.
  assert (Fixtures.record_transaction "TEST" (1 # 2) "BUY" None None
            Fixtures.funded_portfolio
          = (Returned true,
             Fixtures.after (Fixtures.record_transaction "TEST" (1 # 2) "BUY" None None)
               Fixtures.funded_portfolio)) as H by (vm_compute; reflexivity).
  assert (Column.varchar 10 "TEST" = inr "TEST") as Vt by reflexivity.
  assert (two_places (1 # 2)) as Tp by (exists 50; reflexivity).
  split; [exact H|]. split; [exact Vt|]. split; [exact Tp|].
  destruct (C9_buy_quantity_round_trip _ _ _ _ _ _ _ _ _ _ H Vt)
    as (tr & h' & Ltr & Lh & Etr & Eh & Hround).
  rewrite Lh, Ltr, last_snoc.
  change (Some (holdings.quantity h') = Some 50
          /\ Some (tr_quantity tr) = Some 50 /\ (dec 50 == 1 # 2)%Q).
  rewrite Eh, Etr. repeat split.
Defined.

(** ** Cash *)

Lemma sum_amounts_snoc (rows : list CashRow) (r : CashRow) :
  Portfolio.sum_amounts (rows ++ [r]) = Portfolio.sum_amounts rows + cash_amount r.
Proof.
  unfold Portfolio.sum_amounts. induction rows as [|r0 rows IH]; cbn; [lia|].
  rewrite IH. lia.
Qed.

Lemma dec_minus (a b : Z) : (dec a - dec b == dec (a - b))%Q.
Proof. unfold dec, Qeq, Qminus, Qplus, Qopp; simpl. lia. Qed.

(** The amount stored for a deposit is a two-place decimal: depositing 100.126
    on the empty ledger succeeds and the balance is 100.13. *)
Lemma C6_counterexample :
  let r := Fixtures.update_cash (100126 # 1000) "DEP" Fixtures.clean in
  r.1 = Returned true
  /\ (Portfolio.cash_balance Fixtures.clean == 0)%Q
  /\ (Portfolio.cash_balance r.2 == 10013 # 100)%Q
  /\ ~ (Portfolio.cash_balance r.2
        == Portfolio.cash_balance Fixtures.clean + (100126 # 1000))%Q.
Proof.
  cbv zeta. split; [vm_compute; reflexivity|].
  split; [vm_compute; reflexivity|].
  split; [vm_compute; reflexivity|].
  intros H. vm_compute in H. discriminate H.
Qed.

(** C6 as amended: [update_cash] raises the invalid-argument error when the
    amount is not positive or the kind is neither DEP nor WIT, raises the
    insufficient-funds error when a WIT exceeds the cash balance, all three
    without touching the connection; when it returns True it has appended exactly
    one cash entry, of the given kind, whose amount is the given amount rounded
    to two decimal places, positive for DEP and negative for WIT, so that the
    balance moves by that rounded amount, which is the amount itself when it has
    at most two decimal places. *)
Theorem C6_update_cash (today : string) (amount : Q) (kind : string) (c : Conn) :
  ((amount <= 0)%Q ->
   Portfolio.update_cash today amount kind c = (Raised AmountMustBePositive, c))
  /\ ((0 < amount)%Q -> kind <> "DEP" -> kind <> "WIT" ->
      Portfolio.update_cash today amount kind c = (Raised CashTypeMustBeDepOrWit, c))
  /\ ((0 < amount)%Q -> kind = "WIT" -> (Portfolio.cash_balance c < amount)%Q ->
      Portfolio.update_cash today amount kind c = (Raised InsufficientFundsToWithdraw, c))
  /\ (forall c', Portfolio.update_cash today amount kind c = (Returned true, c') ->
      exists row,
        tbl_cash_transactions (pending c') = tbl_cash_transactions (pending c) ++ [row]
        /\ cash_type row = kind
        /\ cash_amount row
           = (if String.eqb kind "DEP" then to_cents amount else - to_cents amount)
        /\ (Portfolio.cash_balance c'
            == if String.eqb kind "DEP"
               then Portfolio.cash_balance c + ROUND2 amount
               else Portfolio.cash_balance c - ROUND2 amount)%Q
        /\ (two_places amount ->
            (Portfolio.cash_balance c'
             == if String.eqb kind "DEP"
                then Portfolio.cash_balance c + amount
                else Portfolio.cash_balance c - amount)%Q))
  /\ error_kind AmountMustBePositive = InvalidArgument
  /\ error_kind CashTypeMustBeDepOrWit = InvalidArgument
  /\ error_kind InsufficientFundsToWithdraw = InsufficientFunds.
Proof.
  split; [|split; [|split; [|split; [|repeat split]]]].
  - intros H. unfold Portfolio.update_cash. apply Qle_bool_iff in H. now rewrite H.
  - intros Hpos Hd Hw. unfold Portfolio.update_cash.
    destruct (Qle_bool amount 0) eqn:E.
    { apply Qle_bool_iff in E. destruct (Qlt_not_le _ _ Hpos E). }
    destruct (type_in kind ["DEP"; "WIT"]) eqn:T; [|reflexivity].
    destruct (type_in_dep_wit _ T) as [E1|E1]; [destruct (Hd E1)|destruct (Hw E1)].
  - intros Hpos -> Hlt. unfold Portfolio.update_cash.
    destruct (Qle_bool amount 0) eqn:E.
    { apply Qle_bool_iff in E. destruct (Qlt_not_le _ _ Hpos E). }
    apply Qlt_bool_true in Hlt. cbn. now rewrite Hlt.
  - intros c' H.
    pose proof (update_cash_returned _ _ _ _ _ _ H) as [_ Hk].
    apply update_cash_true in H.
    apply insert_into_cash_transactions_ok in H as (ty & Vty & _ & _ & ->).
    assert (ty = kind) as ->.
    { destruct Hk as [-> | [-> _]]; now injection Vty as <-. }
    eexists. cbn. split; [reflexivity|]. split; [reflexivity|].
    assert (to_cents (if String.eqb kind "DEP" then amount else - amount)
            = if String.eqb kind "DEP" then to_cents amount else - to_cents amount) as Ea.
    { destruct (String.eqb kind "DEP"); [reflexivity|apply to_cents_opp]. }
    split; [exact Ea|].
    assert (Portfolio.cash_balance
              (mkConn (committed c)
                 (mkLedger
                    (tbl_cash_transactions (pending c)
                     ++ [mkCash (cash_transactions_id_seq c + 1)
                           (to_cents (if String.eqb kind "DEP" then amount else - amount))
                           kind today])
                    (tbl_transactions (pending c)) (tbl_holdings (pending c))
                    (tbl_realised_delta (pending c)))
                 (cash_transactions_id_seq c + 1) (transactions_id_seq c))
            == if String.eqb kind "DEP"
               then Portfolio.cash_balance c + ROUND2 amount
               else Portfolio.cash_balance c - ROUND2 amount)%Q as Eb.
    { unfold Portfolio.cash_balance, ROUND2. cbn. rewrite sum_amounts_snoc. cbn. rewrite Ea.
      destruct (String.eqb kind "DEP").
      - now rewrite dec_plus.
      - rewrite dec_minus. unfold Qeq, dec; simpl; lia. }
    split; [exact Eb|].
    intros Tp. rewrite Eb. unfold ROUND2.
    destruct (String.eqb kind "DEP"); now rewrite (to_cents_two_places _ Tp).
Qed.

(** The three cash tests: on the funded portfolio a deposit of 500 gives
    10500, a withdrawal of 500 gives 9500, and a withdrawal of 20000 is refused. *)
Lemma C6_witness :
  (Portfolio.cash_balance (Fixtures.after (Fixtures.update_cash 500%Q "DEP")
                             Fixtures.funded_portfolio) == 10500)%Q
  /\ (Portfolio.cash_balance (Fixtures.after (Fixtures.update_cash 500%Q "WIT")
                                Fixtures.funded_portfolio) == 9500)%Q
  /\ Fixtures.update_cash 20000%Q "WIT" Fixtures.funded_portfolio
     = (Raised InsufficientFundsToWithdraw, Fixtures.funded_portfolio).
Proof.
  split; [vm_compute; reflexivity|]. split; [vm_compute; reflexivity|].
  exact (proj1 (proj2 (proj2 (C6_update_cash Fixtures.a_day 20000%Q "WIT"
                                Fixtures.funded_portfolio)))
           eq_refl eq_refl eq_refl).
Defined.

(** ** Failures inside the [try] block *)

(** The insert into [transactions] either hands out an id or fails with an
    error of the store. *)
Lemma insert_into_transactions_cases ticker price quantity type cash_impact date c :
  (exists id c', Portfolio.insert_into_transactions ticker price quantity type
                   cash_impact date c = (inr id, c'))
  \/ (exists e c', Portfolio.insert_into_transactions ticker price quantity type
                     cash_impact date c = (inl (PgError e), c')).
Proof.
  destruct (Portfolio.insert_into_transactions ticker price quantity type
              cash_impact date c) as [[e|id] c'] eqn:E; [right|left; eauto].
  unfold Portfolio.insert_into_transactions in E.
  apply bindM_inl in E as [E|(id & c1 & _ & E)]; [discriminate E|].
  apply bindM_inl in E as [E|(row & c2 & _ & E)].
  - unfold execute in E.
    match type of E with
    | match ?r with _ => _ end _ = _ => destruct r as [d|row]
    end; [|discriminate E].
    injection E as <- <-. eauto.
  - cbv in E. discriminate E.
Qed.


(** C1, on the funded portfolio of the tests (10000 deposited in the same
    session, no holding of TEST): selling 5 TEST does not raise.  The trade
    insert has run (the sequence of [transactions] has moved), [_validate_sale]
    then throws inside the [try] block, the [except] branch rolls the connection
    back and the call returns False; the deposit of the session is gone with it. *)
Theorem C1_sale_without_shares_returns_false :
  let c := Fixtures.funded_portfolio in
  let r := Fixtures.record_transaction "TEST" 5%Q "SELL" None (Some 100%Q) c in
  tbl_holdings (pending c) !! "TEST" = None
  /\ r.1 = Returned false
  /\ (Portfolio.record_transaction_try Fixtures.a_day "TEST" 5%Q "SELL" 100%Q 100%Q 500%Q
        Fixtures.a_day c).1 = inl (PyValueError InsufficientSharesToSell)
  /\ transactions_id_seq r.2 = transactions_id_seq c + 1
  /\ (Portfolio.cash_balance c == 10000)%Q
  /\ (Portfolio.cash_balance r.2 == 0)%Q.
Proof.
  cbv zeta. repeat split; vm_compute; reflexivity.
Qed.

(** The rollback of the [except] branch is that of the whole open transaction.
    On the funded portfolio (10000 deposited earlier in the session, not yet
    committed) a trade of the unknown kind HOLD and a deposit too large for the
    column both return False, and the balance is 0 afterwards, not 10000. *)
Lemma C5_counterexample :
  let c := Fixtures.funded_portfolio in
  let r1 := Fixtures.record_transaction "TEST" 5%Q "HOLD" None None c in
  let r2 := Fixtures.update_cash (10 ^ 13)%Q "DEP" c in
  (Portfolio.cash_balance c == 10000)%Q
  /\ r1.1 = Returned false /\ (Portfolio.cash_balance r1.2 == 0)%Q
  /\ r2.1 = Returned false /\ (Portfolio.cash_balance r2.2 == 0)%Q
  /\ pending r1.2 <> pending c /\ pending r2.2 <> pending c.
Proof.
  cbv zeta. repeat split; try (vm_compute; reflexivity).
  all: intros H; vm_compute in H; discriminate H.
Qed.

(** C5 as amended: when a statement of the [try] block of [update_cash] or of
    [record_transaction] fails, the call returns False instead of raising, and
    the connection is rolled back as a whole: the ledger it sees is the one of
    the last commit.  The steps of the call are undone, and so is every earlier
    operation of the session that was not committed; when there was none, the
    ledger is the one the call started from. *)
Theorem C5_failure_rolls_back_to_last_commit
    (get_stock_price : string -> option string -> option Q)
    (strptime_ok : string -> bool) (today : string) :
  (forall amount kind c e c1,
      (0 < amount)%Q ->
      kind = "DEP" \/ kind = "WIT" /\ (amount <= Portfolio.cash_balance c)%Q ->
      Portfolio.insert_into_cash_transactions today
        (if String.eqb kind "DEP" then amount else - amount)%Q kind c = (inl e, c1) ->
      exists c',
        Portfolio.update_cash today amount kind c = (Returned false, c')
        /\ pending c' = committed c /\ committed c' = committed c
        /\ (pending c = committed c -> pending c' = pending c))
  /\ (forall ticker quantity kind date manual_price c current price e c1,
      Portfolio.arguments_pass strptime_ok quantity date manual_price ->
      get_stock_price ticker None = Some current ->
      Portfolio.trade_price get_stock_price today ticker date manual_price = Some price ->
      String.eqb kind "BUY" && Qlt_bool (Portfolio.cash_balance c) (price * quantity) = false ->
      Portfolio.record_transaction_try today ticker quantity kind price current
        (price * quantity) (Portfolio.transaction_date today date) c = (inl e, c1) ->
      exists c',
        Portfolio.record_transaction get_stock_price strptime_ok today
          ticker quantity kind date manual_price c = (Returned false, c')
        /\ pending c' = committed c /\ committed c' = committed c
        /\ (pending c = committed c -> pending c' = pending c)).
Proof.
  split.
  - intros amount kind c e c1 Hpos Hk E.
    rewrite (update_cash_run _ _ _ _ Hpos Hk), E.
    apply kc_insert_into_cash_transactions in E.
    exists (rollback c1). cbn. repeat split; auto. congruence.
  - intros ticker quantity kind date manual_price c current price e c1 Ha Hc Ht Hf E.
    rewrite (record_transaction_run _ _ _ _ _ _ _ _ _ _ _ Ha Hc Ht), Hf, E.
    apply kc_record_transaction_try in E.
    exists (rollback c1). cbn. repeat split; auto. congruence.
Qed.

(** On a freshly committed funded portfolio the trade of kind HOLD fails in the
    store, returns False, and the ledger is the committed one again. *)
Lemma C5_witness :
  let c := Portfolio.__exit__ Fixtures.funded_portfolio in
  let t := Portfolio.record_transaction_try Fixtures.a_day "TEST" 5%Q "HOLD" 100%Q 100%Q
             (100 * 5)%Q (Portfolio.transaction_date Fixtures.a_day None) c in
  t = (inl (PgError CheckViolation), t.2)
  /\ exists c',
      Fixtures.record_transaction "TEST" 5%Q "HOLD" None None c = (Returned false, c')
      /\ pending c' = committed c /\ committed c' = committed c
      /\ (pending c = committed c -> pending c' = pending c).
Proof.
  cbv zeta.
  assert (Portfolio.record_transaction_try Fixtures.a_day "TEST" 5%Q "HOLD" 100%Q 100%Q
            (100 * 5)%Q (Portfolio.transaction_date Fixtures.a_day None)
            (Portfolio.__exit__ Fixtures.funded_portfolio)
          = (inl (PgError CheckViolation),
             (Portfolio.record_transaction_try Fixtures.a_day "TEST" 5%Q "HOLD" 100%Q 100%Q
                (100 * 5)%Q (Portfolio.transaction_date Fixtures.a_day None)
                (Portfolio.__exit__ Fixtures.funded_portfolio)).2)) as E
      by (vm_compute; reflexivity).
  split; [exact E|].
  refine (proj2 (C5_failure_rolls_back_to_last_commit
                   Fixtures.mock_get_price Fixtures.any_date Fixtures.a_day)
            "TEST" 5%Q "HOLD" None None _ 100%Q 100%Q _ _ _ eq_refl eq_refl eq_refl E).
  split; [reflexivity|split; intros ? [=]].
Defined.

(** ** Quantities of holdings *)







(** ** The kind of a trade *)

Lemma type_in_buy_sell ty :
  type_in ty ["BUY"; "SELL"] = true -> ty = "BUY" \/ ty = "SELL".
Proof.
  unfold type_in; cbn. rewrite !orb_true_iff, !String.eqb_eq. intuition discriminate.
Qed.

Lemma substring_full (s : string) : String.substring 0 (String.length s) s = s.
Proof. induction s as [|a s IH]; cbn; [reflexivity|now rewrite IH]. Qed.

Lemma substring_none (s : string) : String.substring 0 0 s = EmptyString.
Proof. destruct s; reflexivity. Qed.

(** The kinds the column [type VARCHAR(4) CHECK (type IN ('BUY', 'SELL'))]
    lets through. *)
Lemma varchar4_accepted kind ty :
  Column.varchar 4 kind = inr ty -> type_in ty ["BUY"; "SELL"] = true ->
  kind = "BUY" \/ kind = "SELL" \/ padded_sell kind.
Proof.
  unfold Column.varchar. destruct (String.length kind <=? 4)%nat eqn:Len.
  - intros [= <-] H. apply type_in_buy_sell in H. tauto.
  - apply Nat.leb_gt in Len.
    destruct kind as [|a [|b [|c [|d rest]]]]; cbn in Len; try lia.
    cbn [String.length Nat.sub String.substring].
    rewrite Nat.sub_0_r, substring_full, substring_none.
    destruct (Column.all_spaces rest) eqn:Sp; [|discriminate].
    intros [= <-] H. apply type_in_buy_sell in H as [H|H]; [discriminate H|].
    injection H as -> -> -> ->. right; right. exists rest. auto.
Qed.

(** A kind is accepted when it is SELL followed by spaces: on the 10 TEST bought
    at 100, a trade of kind [SELL ] (with one space) returns True; it is stored
    as a SELL and handled as a sale, with a negative cash impact on the trade. *)
Lemma C10_counterexample :
  let c := Fixtures.bought_ten in
  let r := Fixtures.record_transaction "TEST" 5%Q "SELL " None None c in
  r.1 = Returned true
  /\ tr_type <$> last (tbl_transactions (pending r.2)) = Some "SELL"
  /\ tr_cash_impact <$> last (tbl_transactions (pending r.2)) = Some (-50000)
  /\ cash_amount <$> last (tbl_cash_transactions (pending r.2)) = Some 50000
  /\ holdings.quantity <$> tbl_holdings (pending r.2) !! "TEST" = Some 500.
Proof.
  cbv zeta. repeat split; vm_compute; reflexivity.
Qed.

(** C10 as amended: [record_transaction] does not look at the kind before it
    writes, except to apply the funds check to BUY.  For a kind other than BUY,
    once the arguments pass and the prices resolve, the call is its [try] block,
    which starts with the insert of the trade; a kind that is neither BUY nor
    SELL nor SELL followed by spaces makes that insert fail in the store, and the
    call returns False, rolled back, instead of raising; a call that returns
    True has followed the sale path: the holding is reduced, a cash entry of type
    SELL and a realised gain are appended. *)
Theorem C10_kind_is_left_to_the_store
    (get_stock_price : string -> option string -> option Q)
    (strptime_ok : string -> bool) (today : string)
    (ticker : string) (quantity : Q) (kind : string) (date : option string)
    (manual_price : option Q) (c : Conn) (current price : Q) :
  Portfolio.arguments_pass strptime_ok quantity date manual_price ->
  get_stock_price ticker None = Some current ->
  Portfolio.trade_price get_stock_price today ticker date manual_price = Some price ->
  kind <> "BUY" ->
  Portfolio.record_transaction get_stock_price strptime_ok today
    ticker quantity kind date manual_price c
  = match Portfolio.record_transaction_try today ticker quantity kind price current
            (price * quantity) (Portfolio.transaction_date today date) c with
    | (inr _, c') => (Returned true, c')
    | (inl _, c') => (Returned false, rollback c')
    end
  /\ (kind <> "SELL" -> ~ padded_sell kind ->
      exists e c1,
        Portfolio.insert_into_transactions ticker price quantity kind
          (if String.eqb kind "SELL" then price * quantity else - (price * quantity))%Q
          (Portfolio.transaction_date today date) c = (inl (PgError e), c1)
        /\ Portfolio.record_transaction get_stock_price strptime_ok today
             ticker quantity kind date manual_price c = (Returned false, rollback c1)
        /\ pending (rollback c1) = committed c)
  /\ (forall c',
      Portfolio.record_transaction get_stock_price strptime_ok today
        ticker quantity kind date manual_price c = (Returned true, c') ->
      exists h h' cash rd,
        tbl_holdings (pending c) !! ticker = Some h
        /\ Portfolio.sell_update h quantity current = inr h'
        /\ tbl_holdings (pending c') = <[ticker := h']> (tbl_holdings (pending c))
        /\ tbl_cash_transactions (pending c') = tbl_cash_transactions (pending c) ++ [cash]
        /\ cash_type cash = "SELL"
        /\ tbl_realised_delta (pending c') = tbl_realised_delta (pending c) ++ [rd]).
Proof.
  intros Ha Hc Ht Hk.
  assert (String.eqb kind "BUY" = false) as K by now apply String.eqb_neq.
  assert (Portfolio.record_transaction get_stock_price strptime_ok today
            ticker quantity kind date manual_price c
          = match Portfolio.record_transaction_try today ticker quantity kind price current
                    (price * quantity) (Portfolio.transaction_date today date) c with
            | (inr _, c') => (Returned true, c')
            | (inl _, c') => (Returned false, rollback c')
            end) as Run.
  { rewrite (record_transaction_run _ _ _ _ _ _ _ _ _ _ _ Ha Hc Ht), K. reflexivity. }
  split; [exact Run|]. split.
  - intros Hs Hpad.
    destruct (insert_into_transactions_cases ticker price quantity kind
                (if String.eqb kind "SELL" then price * quantity else - (price * quantity))%Q
                (Portfolio.transaction_date today date) c)
      as [(id & c1 & E)|(e & c1 & E)].
    + exfalso.
      apply insert_into_transactions_ok in E as (t & ty & _ & Vty & Hty & _).
      destruct (varchar4_accepted _ _ Vty Hty) as [?|[?|?]]; auto.
    + exists e, c1. split; [exact E|].
      assert (Portfolio.record_transaction_try today ticker quantity kind price current
                (price * quantity) (Portfolio.transaction_date today date) c
              = (inl (PgError e), c1)) as T.
      { unfold Portfolio.record_transaction_try, bindM. now rewrite E. }
      rewrite Run, T. split; [reflexivity|].
      apply kc_record_transaction_try in T. exact T.
  - intros c' E. rewrite Run in E.
    destruct (Portfolio.record_transaction_try _ _ _ _ _ _ _ _ _) as [[e|u] c1] eqn:T;
      [discriminate E|].
    injection E as <-.
    apply sell_try_ok in T as (t & ty & h & h' & _ & _ & _ & _ & _ & L & _ & Hs & ->);
      [|exact K].
    exists h, h'. eexists _, _. cbn. repeat split; auto.
Qed.

(** A trade of kind HOLD on the funded portfolio: the insert fails on the CHECK
    constraint of the column and the call returns False. *)
Lemma C10_witness :
  let c := Fixtures.funded_portfolio in
  Portfolio.arguments_pass Fixtures.any_date 5%Q None None
  /\ Fixtures.mock_get_price "TEST" None = Some 100%Q
  /\ Portfolio.trade_price Fixtures.mock_get_price Fixtures.a_day "TEST" None None
     = Some 100%Q
  /\ "HOLD" <> "BUY" /\ "HOLD" <> "SELL" /\ ~ padded_sell "HOLD"
  /\ (Portfolio.insert_into_transactions "TEST" 100%Q 5%Q "HOLD" (- (100 * 5))%Q
        Fixtures.a_day c).1 = inl (PgError CheckViolation)
  /\ (Fixtures.record_transaction "TEST" 5%Q "HOLD" None None c).1 = Returned false.
Proof.
  cbv zeta.
  assert (Portfolio.arguments_pass Fixtures.any_date 5%Q None None) as Ha
      by (split; [reflexivity|split; intros ? [=]]).
  assert ("HOLD" <> "BUY") as Hb by discriminate.
  assert ("HOLD" <> "SELL") as Hs by discriminate.
  assert (~ padded_sell "HOLD") as Hp by (intros (pad & _ & [=])).
  split; [exact Ha|]. split; [reflexivity|]. split; [reflexivity|].
  split; [exact Hb|]. split; [exact Hs|]. split; [exact Hp|].
  split; [vm_compute; reflexivity|].
  destruct (proj1 (proj2 (C10_kind_is_left_to_the_store
                            Fixtures.mock_get_price Fixtures.any_date Fixtures.a_day
                            "TEST" 5%Q "HOLD" None None Fixtures.funded_portfolio
                            100%Q 100%Q Ha eq_refl eq_refl Hb)) Hs Hp)
    as (e & c1 & _ & R & _).
  unfold Fixtures.record_transaction. now rewrite R.
Defined.

(** * Further properties of the code *)

(** ** More on rounding *)

(** The rounded value is within one half of the value. *)
Lemma round_half_away_near (n : Z) (d : positive) :
  (2 * round_half_away (n # d) - 1) * Zpos d <= 2 * n
  /\ 2 * n <= (2 * round_half_away (n # d) + 1) * Zpos d.
Proof.
  unfold round_half_away; cbn [Qnum Qden].
  pose proof (half_up_bounds (Z.abs n) (Zpos d) ltac:(lia)) as [Lo Hi].
  set (k := (2 * Z.abs n + Zpos d) / (2 * Zpos d)) in *.
  destruct (Z.sgn_spec n) as [[Hn ->]|[[Hn ->]|[Hn ->]]]; nia.
Qed.

Lemma round_half_away_le (x y : Q) :
  (x <= y)%Q -> round_half_away x <= round_half_away y.
Proof.
  intros Hle.
  destruct (Z_le_gt_dec (round_half_away x) (round_half_away y)) as [|Hgt]; [assumption|].
  assert (x == y)%Q as E.
  { destruct x as [n1 d1], y as [n2 d2]. unfold Qle, Qeq in *; cbn [Qnum Qden] in *.
    pose proof (round_half_away_near n1 d1) as [A _].
    pose proof (round_half_away_near n2 d2) as [_ B].
    set (r1 := round_half_away (n1 # d1)) in *.
    set (r2 := round_half_away (n2 # d2)) in *.
    assert ((2 * r1 - 1) * Zpos d1 * Zpos d2 <= 2 * n1 * Zpos d2) as A'
        by (apply Z.mul_le_mono_nonneg_r; lia).
    assert (2 * n2 * Zpos d1 <= (2 * r2 + 1) * Zpos d2 * Zpos d1) as B'
        by (apply Z.mul_le_mono_nonneg_r; lia).
    assert ((2 * r2 + 1) * Zpos d2 * Zpos d1 <= (2 * r1 - 1) * Zpos d1 * Zpos d2) by nia.
    lia. }
  rewrite (round_half_away_proper _ _ E) in Hgt. lia.
Qed.

Lemma to_cents_le (x y : Q) : (x <= y)%Q -> to_cents x <= to_cents y.
Proof.
  intros H. unfold to_cents. apply round_half_away_le.
  apply Qmult_le_compat_r; [exact H|discriminate].
Qed.

(** A value that rounds to a positive number of hundredths is positive. *)
Lemma to_cents_pos (x : Q) : 0 < to_cents x -> (0 < x)%Q.
Proof.
  intros H. apply Qnot_le_lt. intros Hle.
  apply to_cents_le in Hle. change (to_cents 0) with 0 in Hle. lia.
Qed.

(** ** The three ways a call ends *)

Section Outcomes.

Variable get_stock_price : string -> option string -> option Q.
Variable strptime_ok : string -> bool.
Variable today : string.

(** [update_cash] raises and leaves the connection alone, or fails in its
    insert and rolls back, or has run its insert. *)
Lemma update_cash_cases amount kind c :
  (exists e, Portfolio.update_cash today amount kind c = (Raised e, c))
  \/ (exists e c1,
        Portfolio.insert_into_cash_transactions today
          (if String.eqb kind "DEP" then amount else - amount)%Q kind c = (inl e, c1)
        /\ Portfolio.update_cash today amount kind c = (Returned false, rollback c1))
  \/ (exists c',
        Portfolio.insert_into_cash_transactions today
          (if String.eqb kind "DEP" then amount else - amount)%Q kind c = (inr tt, c')
        /\ Portfolio.update_cash today amount kind c = (Returned true, c')).
Proof.
  destruct (Portfolio.update_cash today amount kind c) as [[b|e] c'] eqn:E.
  - pose proof (update_cash_returned _ _ _ _ _ _ E) as [Hpos Hk].
    rewrite (update_cash_run _ _ _ _ Hpos Hk) in E.
    destruct (Portfolio.insert_into_cash_transactions _ _ _ _) as [[e|[]] c1] eqn:I.
    + right; left. injection E as <- <-. eauto.
    + right; right. injection E as <- <-. eauto.
  - left. apply update_cash_raised in E as ->. eauto.
Qed.

(** The same for [record_transaction] and its [try] block. *)
Lemma record_transaction_cases ticker quantity kind date manual_price c :
  (exists e, Portfolio.record_transaction get_stock_price strptime_ok today
               ticker quantity kind date manual_price c = (Raised e, c))
  \/ exists current price,
      get_stock_price ticker None = Some current
      /\ Portfolio.trade_price get_stock_price today ticker date manual_price = Some price
      /\ ((exists e c1,
             Portfolio.record_transaction_try today ticker quantity kind price current
               (price * quantity) (Portfolio.transaction_date today date) c = (inl e, c1)
             /\ Portfolio.record_transaction get_stock_price strptime_ok today
                  ticker quantity kind date manual_price c = (Returned false, rollback c1))
          \/ (exists c',
                Portfolio.record_transaction_try today ticker quantity kind price current
                  (price * quantity) (Portfolio.transaction_date today date) c = (inr tt, c')
                /\ Portfolio.record_transaction get_stock_price strptime_ok today
                     ticker quantity kind date manual_price c = (Returned true, c'))).
Proof.
  destruct (Portfolio.record_transaction get_stock_price strptime_ok today
              ticker quantity kind date manual_price c) as [[b|e] c'] eqn:E.
  - pose proof (record_transaction_returned _ _ _ _ _ _ _ _ _ _ _ E)
      as (current & price & Ha & Hc & Ht).
    right. exists current, price. split; [exact Hc|]. split; [exact Ht|].
    rewrite (record_transaction_run _ _ _ _ _ _ _ _ _ _ _ Ha Hc Ht) in E.
    destruct (_ && _); [discriminate E|].
    destruct (Portfolio.record_transaction_try _ _ _ _ _ _ _ _ _) as [[e|[]] c1] eqn:T.
    + left. injection E as <- <-. eauto.
    + right. injection E as <- <-. eauto.
  - left. apply record_transaction_raised in E as ->. eauto.
Qed.

(** An invariant of ledgers is kept by [update_cash] as soon as a successful
    insert keeps it. *)
Lemma update_cash_keeps (P : Ledger -> Prop) amount kind c :
  on_both P c ->
  (forall c', Portfolio.update_cash today amount kind c = (Returned true, c') ->
              P (pending c')) ->
  on_both P (Portfolio.update_cash today amount kind c).2.
Proof.
  intros [Hc Hp] Hok.
  destruct (update_cash_cases amount kind c)
    as [(e & E)|[(e & c1 & I & E)|(c' & I & E)]]; rewrite E; unfold on_both; cbn.
  - split; assumption.
  - apply kc_insert_into_cash_transactions in I. rewrite I. split; assumption.
  - split; [|now apply Hok].
    apply kc_insert_into_cash_transactions in I. now rewrite I.
Qed.

Lemma record_transaction_keeps (P : Ledger -> Prop)
    ticker quantity kind date manual_price c :
  on_both P c ->
  (forall c', Portfolio.record_transaction get_stock_price strptime_ok today
                ticker quantity kind date manual_price c = (Returned true, c') ->
              P (pending c')) ->
  on_both P (Portfolio.record_transaction get_stock_price strptime_ok today
               ticker quantity kind date manual_price c).2.
Proof.
  intros [Hc Hp] Hok.
  destruct (record_transaction_cases ticker quantity kind date manual_price c)
    as [(e & E)|(current & price & _ & _ & [(e & c1 & T & E)|(c' & T & E)])];
    rewrite E; unfold on_both; cbn.
  - split; assumption.
  - apply kc_record_transaction_try in T. rewrite T. split; assumption.
  - split; [|now apply Hok].
    apply kc_record_transaction_try in T. now rewrite T.
Qed.

End Outcomes.

(** ** Trades and their cash entries *)



(** ** The cash balance *)

(** A BUY that returned True went through the funds check. *)
Lemma buy_true_within_balance
    (get_stock_price : string -> option string -> option Q)
    (strptime_ok : string -> bool) (today : string)
    ticker quantity date manual_price c c' price :
  Portfolio.record_transaction get_stock_price strptime_ok today
    ticker quantity "BUY" date manual_price c = (Returned true, c') ->
  Portfolio.trade_price get_stock_price today ticker date manual_price = Some price ->
  (price * quantity <= Portfolio.cash_balance c)%Q.
Proof.
  intros E Ht.
  pose proof (record_transaction_returned _ _ _ _ _ _ _ _ _ _ _ E)
    as (current & price' & Ha & Hc & Ht').
  rewrite Ht in Ht'. injection Ht' as <-.
  rewrite (record_transaction_run _ _ _ _ _ _ _ _ _ _ _ Ha Hc Ht) in E.
  cbn [String.eqb Ascii.eqb Bool.eqb andb] in E.
  destruct (Qlt_bool _ _) eqn:F; [discriminate E|].
  now apply Qlt_bool_false.
Qed.

(** X2: the cash balance never becomes negative.  If the cash entries of the
    committed ledger and of the open transaction sum to at least zero, they
    still do after any call of [update_cash] or [record_transaction], whatever
    its arguments and outcome, and after a commit or a rollback. *)
Theorem X2_cash_balance_never_negative
    (get_stock_price : string -> option string -> option Q)
    (strptime_ok : string -> bool) (today : string) (c : Conn) :
  on_both balance_nonneg c ->
  (forall amount kind,
      on_both balance_nonneg (Portfolio.update_cash today amount kind c).2)
  /\ (forall ticker quantity kind date manual_price,
        on_both balance_nonneg
          (Portfolio.record_transaction get_stock_price strptime_ok today
             ticker quantity kind date manual_price c).2)
  /\ on_both balance_nonneg (Portfolio.__exit__ c)
  /\ on_both balance_nonneg (rollback c).
Proof.
  intros Hc. split; [|split; [|split]].
  - intros amount kind. apply update_cash_keeps; [exact Hc|].
    intros c' E. destruct Hc as [_ Hp]. unfold balance_nonneg in *.
    pose proof (update_cash_returned _ _ _ _ _ _ E) as [Hpos Hk].
    apply update_cash_true in E.
    apply insert_into_cash_transactions_ok in E as (ty & _ & _ & _ & ->).
    cbn. rewrite sum_amounts_snoc. cbn.
    destruct Hk as [-> | [-> Hle]]; cbn.
    + pose proof (to_cents_nonneg amount (Qlt_le_weak _ _ Hpos)). lia.
    + rewrite to_cents_opp. apply to_cents_le in Hle.
      unfold Portfolio.cash_balance in Hle. rewrite to_cents_dec in Hle. lia.
  - intros ticker quantity kind date manual_price.
    apply record_transaction_keeps; [exact Hc|].
    intros c' E. destruct Hc as [_ Hp]. unfold balance_nonneg in *.
    pose proof (record_transaction_true _ _ _ _ _ _ _ _ _ _ E)
      as (current & price & _ & Ht & T).
    destruct (String.eqb kind "BUY") eqn:K.
    + apply String.eqb_eq in K as ->.
      pose proof (buy_true_within_balance _ _ _ _ _ _ _ _ _ _ E Ht) as Hle.
      apply buy_try_ok in T as (t & h' & _ & _ & _ & _ & _ & ->).
      cbn. rewrite sum_amounts_snoc. cbn. rewrite to_cents_opp.
      apply to_cents_le in Hle.
      unfold Portfolio.cash_balance in Hle. rewrite to_cents_dec in Hle. lia.
    + apply sell_try_ok in T as (t & ty & h & h' & _ & _ & _ & Hq & Hpr & _ & _ & _ & ->);
        [|exact K].
      cbn. rewrite sum_amounts_snoc. cbn.
      assert (0 <= to_cents (price * quantity)).
      { apply to_cents_nonneg, Qmult_le_0_compat; apply Qlt_le_weak, to_cents_pos;
          assumption. }
      lia.
  - destruct Hc as [_ Hp]. split; exact Hp.
  - destruct Hc as [Hc _]. split; exact Hc.
Qed.

(** On the funded portfolio the balance is 10000; it stays at zero or above
    whatever is called next. *)
Lemma X2_witness :
  on_both balance_nonneg Fixtures.funded_portfolio
  /\ on_both balance_nonneg
       (Fixtures.record_transaction "TEST" 100%Q "BUY" None None
          Fixtures.funded_portfolio).2
  /\ (Portfolio.cash_balance
        (Fixtures.record_transaction "TEST" 100%Q "BUY" None None
           Fixtures.funded_portfolio).2 == 0)%Q.
Proof.
  assert (on_both balance_nonneg Fixtures.funded_portfolio) as H
      by (split; vm_compute; discriminate).
  split; [exact H|]. split; [|vm_compute; reflexivity].
  exact (proj1 (proj2 (X2_cash_balance_never_negative
                         Fixtures.mock_get_price Fixtures.any_date Fixtures.a_day
                         Fixtures.funded_portfolio H))
           "TEST" 100%Q "BUY" None None).
Defined.

(** ** What a call leaves alone *)

(** X3: a successful [update_cash] changes nothing but the cash entries; a
    successful trade on a ticker leaves the holdings of every other ticker as
    they were, and a BUY records no realised gain. *)
Theorem X3_calls_touch_their_own_rows
    (get_stock_price : string -> option string -> option Q)
    (strptime_ok : string -> bool) (today : string) :
  (forall amount kind c c',
      Portfolio.update_cash today amount kind c = (Returned true, c') ->
      tbl_transactions (pending c') = tbl_transactions (pending c)
      /\ tbl_holdings (pending c') = tbl_holdings (pending c)
      /\ tbl_realised_delta (pending c') = tbl_realised_delta (pending c))
  /\ (forall ticker quantity kind date manual_price c c',
        Portfolio.record_transaction get_stock_price strptime_ok today
          ticker quantity kind date manual_price c = (Returned true, c') ->
        (forall other, other <> ticker -> Column.varchar 10 ticker <> inr other ->
                       tbl_holdings (pending c') !! other
                       = tbl_holdings (pending c) !! other)
        /\ (kind = "BUY" ->
            tbl_realised_delta (pending c') = tbl_realised_delta (pending c))).
Proof.
  split.
  - intros amount kind c c' E. apply update_cash_true in E.
    apply insert_into_cash_transactions_ok in E as (ty & _ & _ & _ & ->).
    cbn. auto.
  - intros ticker quantity kind date manual_price c c' E.
    apply record_transaction_true in E as (current & price & _ & _ & T).
    destruct (String.eqb kind "BUY") eqn:K.
    + apply String.eqb_eq in K as ->.
      apply buy_try_ok in T as (t & h' & Vt & _ & _ & _ & _ & ->). cbn. split; [|auto].
      intros other _ Hne. apply lookup_insert_ne. congruence.
    + apply sell_try_ok in T as (t & ty & h & h' & _ & _ & _ & _ & _ & _ & _ & _ & ->);
        [|exact K].
      cbn. split.
      * intros other Hne _. apply lookup_insert_ne. congruence.
      * intros ->. discriminate K.
Qed.

(** A deposit on the portfolio holding 10 TEST leaves the holding and the
    trade in place. *)
Lemma X3_witness :
  let c' := Fixtures.after (Fixtures.update_cash 500%Q "DEP") Fixtures.bought_ten in
  Fixtures.update_cash 500%Q "DEP" Fixtures.bought_ten = (Returned true, c')
  /\ tbl_transactions (pending c') = tbl_transactions (pending Fixtures.bought_ten)
  /\ tbl_holdings (pending c') = tbl_holdings (pending Fixtures.bought_ten)
  /\ tbl_realised_delta (pending c') = tbl_realised_delta (pending Fixtures.bought_ten).
Proof.
  cbv zeta.
  assert (Fixtures.update_cash 500%Q "DEP" Fixtures.bought_ten
          = (Returned true,
             Fixtures.after (Fixtures.update_cash 500%Q "DEP") Fixtures.bought_ten)) as H
      by (vm_compute; reflexivity).
  split; [exact H|].
  exact (proj1 (X3_calls_touch_their_own_rows
                  Fixtures.mock_get_price Fixtures.any_date Fixtures.a_day) _ _ _ _ H).
Defined.

(** ** The holding after a purchase *)





(** ** Keys *)

Lemma fresh_id_NoDup {A : Type} (f : A -> Z) (l : list A) (x : A) (s : Z) :
  NoDup (f <$> l) -> Forall (fun r => f r <= s) l -> s < f x ->
  NoDup (f <$> l ++ [x]).
Proof.
  intros Hn Hle Hx. rewrite fmap_app. apply NoDup_app.
  split; [exact Hn|]. split; [|apply NoDup_singleton].
  intros y Hy Hin. apply list_elem_of_fmap in Hy as (r & -> & Hr).
  apply list_elem_of_singleton in Hin.
  rewrite Forall_forall in Hle. specialize (Hle r Hr). lia.
Qed.

Lemma Forall_le_snoc {A : Type} (f : A -> Z) (l : list A) (x : A) (s : Z) :
  Forall (fun r => f r <= s) l -> f x = s + 1 ->
  Forall (fun r => f r <= s + 1) (l ++ [x]).
Proof.
  intros Hle Hx. apply Forall_app. split.
  - eapply Forall_impl; [exact Hle|]. cbn. intros; lia.
  - apply Forall_singleton. lia.
Qed.

Lemma keys_ok_mono (s1 s2 s1' s2' : Z) (l : Ledger) :
  s1 <= s1' -> s2 <= s2' -> keys_ok s1 s2 l -> keys_ok s1' s2' l.
Proof.
  intros H1 H2 (A & B & C & D & E & F). repeat split; auto.
  - eapply Forall_impl; [exact B|]. cbn. intros; lia.
  - eapply Forall_impl; [exact D|]. cbn. intros; lia.
Qed.

(** Past the CHECK of [transactions], a type other than BUY is stored as SELL. *)
Lemma varchar4_sell kind ty :
  Column.varchar 4 kind = inr ty -> type_in ty ["BUY"; "SELL"] = true ->
  kind <> "BUY" -> ty = "SELL".
Proof.
  unfold Column.varchar. destruct (String.length kind <=? 4)%nat eqn:Len.
  - intros [= <-] H Hk. apply type_in_buy_sell in H as [H|H]; [contradiction|exact H].
  - apply Nat.leb_gt in Len.
    destruct kind as [|a [|b [|c [|d rest]]]]; cbn in Len; try lia.
    cbn [String.length Nat.sub String.substring].
    rewrite Nat.sub_0_r, substring_full, substring_none.
    destruct (Column.all_spaces rest); [|discriminate].
    intros [= <-] H _. apply type_in_buy_sell in H as [H|H]; [discriminate H|exact H].
Qed.

Section SequencesGrow.

Context {A B : Type}.

Lemma sg_ret (a : A) : sequences_grow (ret a).
Proof. intros c r c' [= <- <-]. lia. Qed.

Lemma sg_throw (e : Exn) : sequences_grow (@throw A e).
Proof. intros c r c' [= <- <-]. lia. Qed.

Lemma sg_execute (r : Column.Row A) : sequences_grow (execute r).
Proof. destruct r; [apply sg_throw|apply sg_ret]. Qed.

Lemma sg_bind (m : M A) (k : A -> M B) :
  sequences_grow m -> (forall a, sequences_grow (k a)) -> sequences_grow (bindM m k).
Proof.
  intros Hm Hk c r c'. unfold bindM. destruct (m c) as [[e|a] c1] eqn:E.
  - intros [= <- <-]. eapply Hm; eauto.
  - intros H. apply Hk in H. apply Hm in E. lia.
Qed.

End SequencesGrow.

Lemma sg_read_pending : sequences_grow read_pending.
Proof. intros c r c' [= <- <-]. lia. Qed.

Lemma sg_write_pending l : sequences_grow (write_pending l).
Proof. intros c r c' [= <- <-]. cbn. lia. Qed.

Lemma sg_nextval_cash_transactions : sequences_grow nextval_cash_transactions.
Proof. intros c r c' [= <- <-]. cbn. lia. Qed.

Lemma sg_nextval_transactions : sequences_grow nextval_transactions.
Proof. intros c r c' [= <- <-]. cbn. lia. Qed.

Create HintDb sg.
#[local] Hint Resolve sg_ret sg_throw sg_execute sg_read_pending sg_write_pending
  sg_nextval_cash_transactions sg_nextval_transactions : sg.

Ltac sg :=
  repeat first
    [ apply sg_bind; [|intro]
    | solve [auto with sg]
    | match goal with
      | |- sequences_grow (match ?x with _ => _ end) => destruct x
      end ].

Lemma sg_insert_into_cash_transactions today amount type :
  sequences_grow (Portfolio.insert_into_cash_transactions today amount type).
Proof. unfold Portfolio.insert_into_cash_transactions. sg. Qed.

Lemma sg_record_transaction_try today ticker quantity trans_type price current_price
    value date :
  sequences_grow
    (Portfolio.record_transaction_try today ticker quantity trans_type
       price current_price value date).
Proof.
  unfold Portfolio.record_transaction_try, Portfolio.insert_into_transactions,
    Portfolio._update_holdings_on_buy, Portfolio._update_cash_on_buy,
    Portfolio._validate_sale, Portfolio._get_average_purchase_price,
    Portfolio._update_holdings_on_sell, Portfolio._update_cash_on_sell,
    Portfolio.insert_into_realised_delta, Portfolio.insert_into_cash_transactions.
  sg.
Qed.

(** X6: the primary and foreign keys of the tables are never violated.  If,
    in the committed ledger and in the open transaction, the ids of the cash
    entries and of the trades are distinct and were handed out by the sequences,
    and every realised gain has an id of its own that is the id of a stored SELL
    trade with the same ticker and date, then the same holds after any call of
    [update_cash] or [record_transaction] and after a commit or a rollback. *)
Theorem X6_keys_are_kept
    (get_stock_price : string -> option string -> option Q)
    (strptime_ok : string -> bool) (today : string) (c : Conn) :
  conn_keys_ok c ->
  (forall amount kind, conn_keys_ok (Portfolio.update_cash today amount kind c).2)
  /\ (forall ticker quantity kind date manual_price,
        conn_keys_ok (Portfolio.record_transaction get_stock_price strptime_ok today
                        ticker quantity kind date manual_price c).2)
  /\ conn_keys_ok (Portfolio.__exit__ c)
  /\ conn_keys_ok (rollback c).
Proof.
  intros [Hc Hp]. split; [|split; [|split]].
  - intros amount kind.
    destruct (update_cash_cases today amount kind c)
      as [(e & E)|[(e & c1 & I & E)|(c' & I & E)]]; rewrite E; cbn.
    + split; assumption.
    + pose proof (sg_insert_into_cash_transactions _ _ _ _ _ _ I) as [S1 S2].
      apply kc_insert_into_cash_transactions in I.
      unfold conn_keys_ok, on_both. cbn. rewrite I.
      split; apply (keys_ok_mono _ _ _ _ _ S1 S2 Hc).
    + apply insert_into_cash_transactions_ok in I as (ty & _ & _ & _ & ->).
      unfold conn_keys_ok, on_both. cbn. split.
      * apply (keys_ok_mono (cash_transactions_id_seq c) (transactions_id_seq c));
          [lia|lia|exact Hc].
      * destruct Hp as (A & B & C & D & F & G). repeat split; cbn; auto.
        -- apply (fresh_id_NoDup cash_id _ _ (cash_transactions_id_seq c)); auto.
           cbn. lia.
        -- now apply (Forall_le_snoc cash_id).
  - intros ticker quantity kind date manual_price.
    destruct (record_transaction_cases get_stock_price strptime_ok today
                ticker quantity kind date manual_price c)
      as [(e & E)|(current & price & _ & _ & [(e & c1 & T & E)|(c' & T & E)])];
      rewrite E; cbn.
    + split; assumption.
    + pose proof (sg_record_transaction_try _ _ _ _ _ _ _ _ _ _ _ T) as [S1 S2].
      apply kc_record_transaction_try in T.
      unfold conn_keys_ok, on_both. cbn. rewrite T.
      split; apply (keys_ok_mono _ _ _ _ _ S1 S2 Hc).
    + destruct (String.eqb kind "BUY") eqn:K.
      * apply String.eqb_eq in K as ->.
        apply buy_try_ok in T as (t & h' & _ & _ & _ & _ & _ & ->).
        unfold conn_keys_ok, on_both. cbn. split.
        -- apply (keys_ok_mono (cash_transactions_id_seq c) (transactions_id_seq c));
             [lia|lia|exact Hc].
        -- destruct Hp as (A & B & C & D & F & G). repeat split; cbn; auto.
           ++ apply (fresh_id_NoDup cash_id _ _ (cash_transactions_id_seq c)); auto.
              cbn. lia.
           ++ now apply (Forall_le_snoc cash_id).
           ++ apply (fresh_id_NoDup tr_id _ _ (transactions_id_seq c)); auto.
              cbn. lia.
           ++ now apply (Forall_le_snoc tr_id).
           ++ eapply Forall_impl; [exact G|]. cbn.
              intros rd (tr & Hin & Hrest). exists tr. split; [|exact Hrest].
              apply elem_of_app. now left.
      * apply sell_try_ok in T
          as (t & ty & h & h' & _ & Vty & Hty & _ & _ & _ & _ & _ & ->); [|exact K].
        assert (ty = "SELL") as ->.
        { apply (varchar4_sell kind); auto. intros ->. discriminate K. }
        unfold conn_keys_ok, on_both. cbn. split.
        -- apply (keys_ok_mono (cash_transactions_id_seq c) (transactions_id_seq c));
             [lia|lia|exact Hc].
        -- destruct Hp as (A & B & C & D & F & G). repeat split; cbn; auto.
           ++ apply (fresh_id_NoDup cash_id _ _ (cash_transactions_id_seq c)); auto.
              cbn. lia.
           ++ now apply (Forall_le_snoc cash_id).
           ++ apply (fresh_id_NoDup tr_id _ _ (transactions_id_seq c)); auto.
              cbn. lia.
           ++ now apply (Forall_le_snoc tr_id).
           ++ apply (fresh_id_NoDup rd_transaction_id _ _ (transactions_id_seq c));
                auto; [|cbn; lia].
              rewrite Forall_forall in G. rewrite Forall_forall in D.
              apply Forall_forall.
              intros rd Hrd. destruct (G rd Hrd) as (tr & Hin & <- & _).
              now apply D.
           ++ apply Forall_app. split.
              ** eapply Forall_impl; [exact G|]. cbn.
                 intros rd (tr & Hin & Hrest). exists tr. split; [|exact Hrest].
                 apply elem_of_app. now left.
              ** apply Forall_singleton. eexists. split.
                 { apply elem_of_app. right. apply list_elem_of_singleton. reflexivity. }
                 cbn. auto.
  - unfold conn_keys_ok, on_both. cbn. split; exact Hp.
  - unfold conn_keys_ok, on_both. cbn. split; exact Hc.
Qed.

(** The keys are in order on the empty database, and still are on the connection
    that bought and sold 10 TEST. *)
Lemma X6_witness :
  conn_keys_ok Fixtures.clean
  /\ conn_keys_ok
       (Fixtures.record_transaction "TEST" 10%Q "SELL" None (Some 150%Q)
          Fixtures.bought_ten).2.
Proof.
  assert (conn_keys_ok Fixtures.clean) as H0.
  { split; repeat split; cbn; auto using NoDup_nil_2. }
  split; [exact H0|].
  pose proof (proj1 (X6_keys_are_kept Fixtures.mock_get_price Fixtures.any_date
                       Fixtures.a_day _ H0) 10000%Q "DEP") as H1.
  pose proof (proj1 (proj2 (X6_keys_are_kept Fixtures.mock_get_price Fixtures.any_date
                              Fixtures.a_day _ H1))
                "TEST" 10%Q "BUY" None (Some 100%Q)) as H2.
  exact (proj1 (proj2 (X6_keys_are_kept Fixtures.mock_get_price Fixtures.any_date
                         Fixtures.a_day _ H2))
           "TEST" 10%Q "SELL" None (Some 150%Q)).
Defined.

(** ** The CHECK constraints *)




(** ** The arguments of a trade *)

(** X8: [record_transaction] checks its arguments in a fixed order and raises
    before anything is written: a quantity of zero or less, then a manual price
    of zero or less, then a date that is not empty and does not parse, then a
    ticker without a current price or without a price on the trade date.  The
    connection is left as it was in each case.  An empty date string is not
    checked and stands for today, exactly like no date. *)
Theorem X8_record_transaction_checks_its_arguments
    (get_stock_price : string -> option string -> option Q)
    (strptime_ok : string -> bool) (today : string)
    (ticker : string) (quantity : Q) (kind : string) (date : option string)
    (manual_price : option Q) (c : Conn) :
  ((quantity <= 0)%Q ->
   Portfolio.record_transaction get_stock_price strptime_ok today
     ticker quantity kind date manual_price c = (Raised SharesMustBePositive, c))
  /\ ((0 < quantity)%Q -> forall p, manual_price = Some p -> (p <= 0)%Q ->
      Portfolio.record_transaction get_stock_price strptime_ok today
        ticker quantity kind date manual_price c = (Raised PriceMustBePositive, c))
  /\ ((0 < quantity)%Q -> (forall p, manual_price = Some p -> (0 < p)%Q) ->
      forall d, date = Some d -> d <> EmptyString -> strptime_ok d = false ->
      Portfolio.record_transaction get_stock_price strptime_ok today
        ticker quantity kind date manual_price c = (Raised DateMustBeYMD, c))
  /\ (Portfolio.arguments_pass strptime_ok quantity date manual_price ->
      get_stock_price ticker None = None
      \/ Portfolio.trade_price get_stock_price today ticker date manual_price = None ->
      Portfolio.record_transaction get_stock_price strptime_ok today
        ticker quantity kind date manual_price c = (Raised InvalidTicker, c))
  /\ Portfolio.record_transaction get_stock_price strptime_ok today
       ticker quantity kind (Some EmptyString) manual_price c
     = Portfolio.record_transaction get_stock_price strptime_ok today
         ticker quantity kind None manual_price c.
Proof.
  assert (forall q, (0 < q)%Q -> Qle_bool q 0 = false) as Pos.
  { intros q Hq. destruct (Qle_bool q 0) eqn:E; [|reflexivity].
    apply Qle_bool_iff in E. destruct (Qlt_not_le _ _ Hq E). }
  split; [|split; [|split; [|split]]].
  - intros H. unfold Portfolio.record_transaction.
    apply Qle_bool_iff in H. now rewrite H.
  - intros Hq p -> Hp. unfold Portfolio.record_transaction.
    rewrite (Pos _ Hq). apply Qle_bool_iff in Hp. now rewrite Hp.
  - intros Hq Hp d -> Hd Hs. unfold Portfolio.record_transaction.
    rewrite (Pos _ Hq).
    assert (match manual_price with Some p => Qle_bool p 0 | None => false end = false)
      as ->.
    { destruct manual_price as [p|]; [|reflexivity]. apply Pos, Hp. reflexivity. }
    unfold Portfolio.truthy. apply String.eqb_neq in Hd. now rewrite Hd, Hs.
  - intros (Hq & Hp & Hd) Hnone. unfold Portfolio.record_transaction.
    rewrite (Pos _ Hq).
    assert (match manual_price with Some p => Qle_bool p 0 | None => false end = false)
      as ->.
    { destruct manual_price as [p|]; [|reflexivity]. apply Pos, Hp. reflexivity. }
    assert (match date with
            | Some d => Portfolio.truthy d && negb (strptime_ok d)
            | None => false
            end = false) as ->.
    { destruct date as [d|]; [|reflexivity].
      destruct (Portfolio.truthy d) eqn:Et; [|reflexivity].
      now rewrite (Hd d eq_refl Et). }
    destruct (get_stock_price ticker None); [|reflexivity].
    destruct Hnone as [Hn|Hn]; [discriminate Hn|]. now rewrite Hn.
  - reflexivity.
Qed.

(** The zero-quantity test, and a malformed date. *)
Lemma X8_witness :
  Fixtures.record_transaction "TEST" 0%Q "BUY" None None Fixtures.funded_portfolio
  = (Raised SharesMustBePositive, Fixtures.funded_portfolio)
  /\ Portfolio.record_transaction Fixtures.mock_get_price (fun _ => false) Fixtures.a_day
       "TEST" 1%Q "BUY" (Some "yesterday") None Fixtures.funded_portfolio
     = (Raised DateMustBeYMD, Fixtures.funded_portfolio).
Proof.
  split.
  - apply (proj1 (X8_record_transaction_checks_its_arguments
                    Fixtures.mock_get_price Fixtures.any_date Fixtures.a_day
                    "TEST" 0%Q "BUY" None None Fixtures.funded_portfolio)).
    discriminate.
  - apply (proj1 (proj2 (proj2 (X8_record_transaction_checks_its_arguments
                    Fixtures.mock_get_price (fun _ => false) Fixtures.a_day
                    "TEST" 1%Q "BUY" (Some "yesterday") None Fixtures.funded_portfolio)))
             eq_refl (fun p (H : None = Some p) => match H with end)
             "yesterday" eq_refl).
    + discriminate.
    + reflexivity.
Defined.

(** ** A purchase followed by a sale *)



(** ** The value of the portfolio *)

(** A sum over the holdings after one row was written. *)
Lemma sum_holdings_insert (f : holdings.row -> Z) (held : gmap string holdings.row) k v :
  map_fold (fun _ h acc => f h + acc) 0 (<[k := v]> held)
  = map_fold (fun _ h acc => f h + acc) 0 held
    - match held !! k with Some old => f old | None => 0 end
    + f v.
Proof.
  destruct (held !! k) as [old|] eqn:L.
  - rewrite (map_fold_delete_L _ _ k old held); [|intros; lia|exact L].
    rewrite <- (insert_delete_eq held k v).
    rewrite map_fold_insert_L; [lia|intros; lia|apply lookup_delete_eq].
  - rewrite map_fold_insert_L; [lia|intros; lia|exact L].
Qed.

(** X10: a successful trade moves [total_value] by the change of the current
    value of the holding traded, and [unrealised_delta] by the change of its
    current value minus cost basis; a holding that did not exist counts for
    zero.  A successful [update_cash] moves neither. *)
Theorem X10_portfolio_value_after_a_call
    (get_stock_price : string -> option string -> option Q)
    (strptime_ok : string -> bool) (today : string) :
  (forall ticker quantity kind date manual_price c c',
      Portfolio.record_transaction get_stock_price strptime_ok today
        ticker quantity kind date manual_price c = (Returned true, c') ->
      exists key h',
        (if String.eqb kind "BUY" then Column.varchar 10 ticker = inr key else key = ticker)
        /\ tbl_holdings (pending c') !! key = Some h'
        /\ (Portfolio.total_value c'
            == Portfolio.total_value c
               - dec (match tbl_holdings (pending c) !! key with
                      | Some h => holdings.current_value h
                      | None => 0
                      end)
               + dec (holdings.current_value h'))%Q
        /\ (Portfolio.unrealised_delta c'
            == Portfolio.unrealised_delta c
               - dec (match tbl_holdings (pending c) !! key with
                      | Some h => holdings.unrealised_delta h
                      | None => 0
                      end)
               + dec (holdings.unrealised_delta h'))%Q)
  /\ (forall amount kind c c',
        Portfolio.update_cash today amount kind c = (Returned true, c') ->
        Portfolio.total_value c' = Portfolio.total_value c
        /\ Portfolio.unrealised_delta c' = Portfolio.unrealised_delta c).
Proof.
  assert (forall (f : holdings.row -> Z) (held : gmap string holdings.row) k v,
             (dec (map_fold (fun _ h acc => (f h + acc)%Z) 0%Z (<[k := v]> held))
              == dec (map_fold (fun _ h acc => (f h + acc)%Z) 0%Z held)
                 - dec (match held !! k with Some old => f old | None => 0%Z end)
                 + dec (f v))%Q) as Sum.
  { intros f held k v. rewrite sum_holdings_insert, dec_minus, dec_plus. reflexivity. }
  split.
  - intros ticker quantity kind date manual_price c c' E.
    apply record_transaction_true in E as (current & price & _ & _ & T).
    destruct (String.eqb kind "BUY") eqn:K.
    + apply String.eqb_eq in K as ->.
      apply buy_try_ok in T as (t & h' & Vt & _ & _ & _ & _ & ->).
      exists t, h'. unfold Portfolio.total_value, Portfolio.unrealised_delta. cbn.
      rewrite lookup_insert_eq. split; [exact Vt|]. split; [reflexivity|].
      split.
      * destruct (tbl_holdings (pending c) !! t) eqn:L;
          rewrite (Sum holdings.current_value), L; reflexivity.
      * destruct (tbl_holdings (pending c) !! t) eqn:L;
          rewrite (Sum holdings.unrealised_delta), L; reflexivity.
    + apply sell_try_ok in T as (t & ty & h & h' & _ & _ & _ & _ & _ & L & _ & _ & ->);
        [|exact K].
      exists ticker, h'. unfold Portfolio.total_value, Portfolio.unrealised_delta. cbn.
      rewrite lookup_insert_eq. split; [reflexivity|]. split; [reflexivity|].
      rewrite L. split.
      * rewrite (Sum holdings.current_value), L; reflexivity.
      * rewrite (Sum holdings.unrealised_delta), L; reflexivity.
  - intros amount kind c c' E. apply update_cash_true in E.
    apply insert_into_cash_transactions_ok in E as (ty & _ & _ & _ & ->).
    split; reflexivity.
Qed.

(** The test of the portfolio value: after buying 10 TEST at 100 the total value
    is 1000 and the unrealised delta 0. *)
Lemma X10_witness :
  Fixtures.record_transaction "TEST" 10%Q "BUY" None None Fixtures.funded_portfolio
  = (Returned true, Fixtures.bought_ten)
  /\ (exists key h',
        Column.varchar 10 "TEST" = inr key
        /\ tbl_holdings (pending Fixtures.bought_ten) !! key = Some h'
        /\ (Portfolio.total_value Fixtures.bought_ten
            == Portfolio.total_value Fixtures.funded_portfolio
               - dec (match tbl_holdings (pending Fixtures.funded_portfolio) !! key with
                      | Some h => holdings.current_value h
                      | None => 0
                      end)
               + dec (holdings.current_value h'))%Q
        /\ (Portfolio.unrealised_delta Fixtures.bought_ten
            == Portfolio.unrealised_delta Fixtures.funded_portfolio
               - dec (match tbl_holdings (pending Fixtures.funded_portfolio) !! key with
                      | Some h => holdings.unrealised_delta h
                      | None => 0
                      end)
               + dec (holdings.unrealised_delta h'))%Q)
  /\ (Portfolio.total_value Fixtures.bought_ten == 1000)%Q
  /\ (Portfolio.unrealised_delta Fixtures.bought_ten == 0)%Q.
Proof.
  assert (Fixtures.record_transaction "TEST" 10%Q "BUY" None None
            Fixtures.funded_portfolio = (Returned true, Fixtures.bought_ten)) as H
      by (vm_compute; reflexivity).
  split; [exact H|]. split; [|split; vm_compute; reflexivity].
  exact (proj1 (X10_portfolio_value_after_a_call
                  Fixtures.mock_get_price Fixtures.any_date Fixtures.a_day)
           "TEST" 10%Q "BUY" None None _ _ H).
Defined.

(** ** The commands *)










(** ** The realised gain *)



